(** * GestionPro: invoice lifecycle, stock and sales ledger

    A shallow embedding of the storage layer ([server/storage.ts]), of the
    request schemas ([shared/schema.ts], [server/routes.ts]) and of the
    invoice form's total calculator ([client/src/pages/invoices.tsx]),
    whose numbers are IEEE 754 binary64.

    The relational store is modelled as a record of tables, each table a
    list of rows in insertion order.  Every [db.select / insert / update /
    delete] of the source is one pure function on that record.  What a
    column makes of a value it accepts is part of the model: a
    [decimal(p, 2)] column rounds to two places.  What the external store
    may refuse on its own (a foreign key without a target, a text that is
    no decimal or too large for its column, an integer outside 32 bits, an
    instant outside the range of a timestamp, an empty SET clause) is not:
    the statements are taken as accepted, and
    the theorems that say what is stored name the values they are about.
    What the program itself throws on (an Invalid Date handed to an
    insert) is modelled where the handler catches it.  The [createdAt]
    columns carry wall clock time and are left out, and with them the
    [orderBy] of the list queries, which return rows in insertion order
    here. *)

From Stdlib Require Import ZArith QArith Qround List String Ascii Bool Lia.
From Stdlib Require DecimalString DecimalN.
From Stdlib Require Import SpecFloat.
Import ListNotations.

Local Open Scope string_scope.
Local Open Scope Z_scope.

(** ** Rows of [shared/schema.ts] *)

Module Schema.

(** [varchar("user_id")]: the tenant key. *)
Definition UserId := string.

(** [decimal(_, { precision, scale })] columns travel as strings. *)
Definition Decimal := string.

(** [timestamp] columns hold an instant: the time value of the [Date] the
    driver hands back, in milliseconds since the epoch. *)
Definition Timestamp := Z.

(** A JavaScript [Date]: its time value, or Invalid Date. *)
Inductive Date : Type :=
| Time (t : Timestamp)
| InvalidDate.

Record Category := mkCategory {
  cat_id : Z;
  cat_name : string;
  cat_description : option string;
  cat_userId : UserId
}.

Record Client := mkClient {
  cl_id : Z;
  cl_name : string;
  cl_email : option string;
  cl_phone : option string;
  cl_address : option string;
  cl_company : option string;
  cl_userId : UserId
}.

(** [stock: integer("stock").default(0)] is nullable. *)
Record Product := mkProduct {
  pr_id : Z;
  pr_name : string;
  pr_description : option string;
  pr_priceHT : Decimal;
  pr_stock : option Z;
  pr_categoryId : option Z;
  pr_userId : UserId
}.

Record Invoice := mkInvoice {
  inv_id : Z;
  inv_number : string;
  inv_clientId : Z;
  inv_status : string;
  inv_totalHT : Decimal;
  inv_tvaRate : Decimal;
  inv_totalTVA : Decimal;
  inv_totalTTC : Decimal;
  inv_dueDate : option Timestamp;
  inv_notes : option string;
  inv_userId : UserId
}.

Record InvoiceItem := mkInvoiceItem {
  it_id : Z;
  it_invoiceId : Z;
  it_productId : option Z;
  it_productName : string;
  it_quantity : Z;
  it_priceHT : Decimal;
  it_totalHT : Decimal
}.

Record Sale := mkSale {
  sa_id : Z;
  sa_invoiceId : Z;
  sa_productId : Z;
  sa_quantity : Z;
  sa_unitPrice : Decimal;
  sa_total : Decimal;
  sa_userId : UserId
}.

(** [InsertInvoice]: the row without [id]; [status] has a column default.
    [dueDate] is a [Date]: the server's insert holds it by its time value
    ([InsertInvoice]), the page by the text it applies [new Date] to. *)
Record InsertInvoiceOf {D : Type} := mkInsertInvoice {
  ii_number : string;
  ii_clientId : Z;
  ii_status : option string;
  ii_totalHT : Decimal;
  ii_tvaRate : Decimal;
  ii_totalTVA : Decimal;
  ii_totalTTC : Decimal;
  ii_dueDate : option D;
  ii_notes : option string;
  ii_userId : UserId
}.
Arguments mkInsertInvoice {D}.

Definition InsertInvoice := @InsertInvoiceOf Timestamp.

(** [Omit<InsertInvoiceItem, 'invoiceId'>]: a line item as submitted. *)
Record ItemInput := mkItemInput {
  in_productId : option Z;
  in_productName : string;
  in_quantity : Z;
  in_priceHT : Decimal;
  in_totalHT : Decimal
}.

(** [InsertInvoiceItem]: the line item with its invoice key. *)
Record InsertInvoiceItem := mkInsertInvoiceItem {
  nit_invoiceId : Z;
  nit_productId : option Z;
  nit_productName : string;
  nit_quantity : Z;
  nit_priceHT : Decimal;
  nit_totalHT : Decimal
}.

Record InsertSale := mkInsertSale {
  ns_invoiceId : Z;
  ns_productId : Z;
  ns_quantity : Z;
  ns_unitPrice : Decimal;
  ns_total : Decimal;
  ns_userId : UserId
}.

(** [Partial<InsertX>]: an absent key is [None]; a nullable column set to
    [null] is [Some None]. *)
Record PartialCategory := mkPartialCategory {
  pcat_name : option string;
  pcat_description : option (option string);
  pcat_userId : option UserId
}.

Record PartialClient := mkPartialClient {
  pcl_name : option string;
  pcl_email : option (option string);
  pcl_phone : option (option string);
  pcl_address : option (option string);
  pcl_company : option (option string);
  pcl_userId : option UserId
}.

Record PartialProduct := mkPartialProduct {
  ppr_name : option string;
  ppr_description : option (option string);
  ppr_priceHT : option Decimal;
  ppr_stock : option (option Z);
  ppr_categoryId : option (option Z);
  ppr_userId : option UserId
}.

Record PartialInvoice := mkPartialInvoice {
  pinv_number : option string;
  pinv_clientId : option Z;
  pinv_status : option string;
  pinv_totalHT : option Decimal;
  pinv_tvaRate : option Decimal;
  pinv_totalTVA : option Decimal;
  pinv_totalTTC : option Decimal;
  pinv_dueDate : option (option Timestamp);
  pinv_notes : option (option string);
  pinv_userId : option UserId
}.

(** [invoices.status ... .default("en_attente")]. *)
Definition default_status : string := "en_attente".

End Schema.

(** ** The query builder: statements over one table *)

Module Sql.

Section Statements.
Context {R : Type}.

(** [db.select().from(t).where(c)] *)
Definition select_where (c : R -> bool) (t : list R) : list R :=
  filter c t.

(** [db.delete(t).where(c)] *)
Definition delete_where (c : R -> bool) (t : list R) : list R :=
  filter (fun r => negb (c r)) t.

(** [db.update(t).set(f).where(c)] *)
Definition update_where (c : R -> bool) (f : R -> R) (t : list R) : list R :=
  map (fun r => if c r then f r else r) t.

(** [.returning()] of an update: the rows as written. *)
Definition update_returning (c : R -> bool) (f : R -> R) (t : list R) : list R :=
  map f (filter c t).

(** [const [x] = rows]: the first row or [undefined]. *)
Definition first (rows : list R) : option R := hd_error rows.
End Statements.

(** [serial] keys of a batch insert: ids [next], [next+1], ... in order. *)
Fixpoint insert_serial {V R : Type} (mk : Z -> V -> R) (next : Z) (vs : list V) : list R :=
  match vs with
  | [] => []
  | v :: vs' => mk next v :: insert_serial mk (next + 1) vs'
  end.

(** [eq(col, v)] on the two key types. *)
Definition eqZ (a b : Z) : bool := Z.eqb a b.
Definition eqS (a b : string) : bool := String.eqb a b.

(** [set] of one column from a patch: an absent key keeps the column. *)
Definition set_col {A : Type} (patch : option A) (old : A) : A :=
  match patch with
  | Some v => v
  | None => old
  end.

End Sql.

(** ** Columns: what the store makes of a decimal text

    The [decimal] columns are PostgreSQL [numeric(precision, scale)].  A
    text written to one is read as a number, rounded to the column's scale
    and printed back with that many places; the rows of the model carry
    the text as the store prints it. *)

Module Columns.

(** C's [isspace] and [isdigit]. *)
Definition isspace (c : ascii) : bool :=
  let n := nat_of_ascii c in
  (Nat.eqb n 32 || (Nat.leb 9 n && Nat.leb n 13))%bool.

Definition isdigit (c : ascii) : bool :=
  let n := nat_of_ascii c in
  (Nat.leb 48 n && Nat.leb n 57)%bool.

Fixpoint skip_spaces (s : string) : string :=
  match s with
  | String c r => if isspace c then skip_spaces r else s
  | EmptyString => s
  end.

(** A run of digits: the number they make after [m], how many there are,
    and the rest of the text. *)
Fixpoint digits (m : Z) (n : nat) (s : string) : Z * nat * string :=
  match s with
  | String c r =>
      if isdigit c then digits (10 * m + (Z.of_nat (nat_of_ascii c) - 48)) (S n) r
      else (m, n, s)
  | EmptyString => (m, n, s)
  end.

Definition sign (s : string) : bool * string :=
  match s with
  | String "-" r => (true, r)
  | String "+" r => (false, r)
  | _ => (false, s)
  end.

(** The exponent part: [e] or [E] and a signed integer; [None] when the
    letter is followed by none. *)
Definition exponent (s : string) : option (Z * string) :=
  match s with
  | String c r =>
      if (Ascii.eqb c "e" || Ascii.eqb c "E")%bool then
        let (neg, r1) := sign r in
        let '(e, n, r2) := digits 0 0 r1 in
        if Nat.eqb n 0 then None else Some (if neg then - e else e, r2)
      else Some (0, s)
  | EmptyString => Some (0, s)
  end.

Definition lower (c : ascii) : ascii :=
  let n := nat_of_ascii c in
  if (Nat.leb 65 n && Nat.leb n 90)%bool then ascii_of_nat (n + 32) else c.

(** [NaN] in any case, which a [numeric] column holds. *)
Definition is_nan (s : string) : option string :=
  match s with
  | String a (String b (String c r)) =>
      if (Ascii.eqb (lower a) "n" && Ascii.eqb (lower b) "a" && Ascii.eqb (lower c) "n")%bool
      then Some r else None
  | _ => None
  end.

(** [m * 10 ^ k] rounded to an integer, a half away from zero, for [m]
    not negative and of [len] digits. *)
Definition shift_round (m : Z) (len : nat) (k : Z) : Z :=
  if 0 <=? k then m * 10 ^ k
  else if Z.of_nat len <? - k then 0
  else (m + 5 * 10 ^ (- k - 1)) / 10 ^ (- k).

Fixpoint pad_zeros (n : nat) (s : string) : string :=
  match n with
  | O => s
  | S n' => if Nat.ltb (String.length s) n then pad_zeros n' (String "0" s) else s
  end.

Definition show_nat (n : Z) : string :=
  DecimalString.NilZero.string_of_uint (N.to_uint (Z.to_N n)).

(** [n] units of [10 ^ - scale] as the store prints them; there is no
    negative zero. *)
Definition show_scaled (scale : Z) (neg : bool) (n : Z) : string :=
  let minus := if (neg && negb (n =? 0))%bool then "-" else "" in
  let whole := show_nat (n / 10 ^ scale) in
  let places :=
    if scale =? 0 then ""
    else String "." (pad_zeros (Z.to_nat scale) (show_nat (n mod 10 ^ scale))) in
  String.append minus (String.append whole places).

(** What a [decimal(precision, scale)] column makes of a text written to
    it: the number rounded to [scale] places, a half away from zero, and
    printed with [scale] places; [None] when the store refuses the text
    (not a number, or too large for the column).  The grammar is that of
    PostgreSQL's numeric input in all its versions: blanks around, a sign,
    digits with at most one point, an exponent below [2 ^ 30], or [NaN].
    (Version 16 also reads [0x], [0o], [0b] and underscores; these are
    refused here.) *)
Definition decimal (precision scale : Z) (text : string) : option string :=
  let s0 := skip_spaces text in
  match is_nan s0 with
  | Some r => if String.eqb (skip_spaces r) "" then Some "NaN" else None
  | None =>
      let (neg, s1) := sign s0 in
      let '(ip, ni, s2) := digits 0 0 s1 in
      let '(m, nf, s3) :=
        match s2 with
        | String "." r => digits ip 0 r
        | _ => (ip, 0%nat, s2)
        end in
      if Nat.eqb (ni + nf) 0 then None
      else
        match exponent s3 with
        | None => None
        | Some (e, s4) =>
            if negb (String.eqb (skip_spaces s4) "") then None
            else if 1073741823 <=? Z.abs e then None
            else
              let k := e - Z.of_nat nf + scale in
              if negb (m =? 0) && (precision <? k) then None
              else
                let n := shift_round m (ni + nf) k in
                if 10 ^ precision <=? n then None
                else Some (show_scaled scale neg n)
        end
  end.

(** The text in the column after a write the store accepts.  A text the
    store refuses is outside the model and stands as written. *)
Definition stored (column : string -> option string) (text : string) : string :=
  match column text with
  | Some t => t
  | None => text
  end.

End Columns.

(** ** [server/storage.ts]: class [DatabaseStorage] *)

Module Storage.
Import Schema Sql Columns.

(** The store: one list per table and the [serial] sequences of the
    tables the invoice operations insert into. *)
Record Db := mkDb {
  categories : list Category;
  clients : list Client;
  products : list Product;
  invoices : list Invoice;
  invoiceItems : list InvoiceItem;
  sales : list Sale;
  invoices_seq : Z;
  invoiceItems_seq : Z;
  sales_seq : Z
}.

Definition with_categories (t : list Category) (db : Db) : Db :=
  mkDb t (clients db) (products db) (invoices db) (invoiceItems db) (sales db)
       (invoices_seq db) (invoiceItems_seq db) (sales_seq db).
Definition with_clients (t : list Client) (db : Db) : Db :=
  mkDb (categories db) t (products db) (invoices db) (invoiceItems db) (sales db)
       (invoices_seq db) (invoiceItems_seq db) (sales_seq db).
Definition with_products (t : list Product) (db : Db) : Db :=
  mkDb (categories db) (clients db) t (invoices db) (invoiceItems db) (sales db)
       (invoices_seq db) (invoiceItems_seq db) (sales_seq db).
Definition with_invoices (t : list Invoice) (db : Db) : Db :=
  mkDb (categories db) (clients db) (products db) t (invoiceItems db) (sales db)
       (invoices_seq db) (invoiceItems_seq db) (sales_seq db).
Definition with_invoiceItems (t : list InvoiceItem) (db : Db) : Db :=
  mkDb (categories db) (clients db) (products db) (invoices db) t (sales db)
       (invoices_seq db) (invoiceItems_seq db) (sales_seq db).
Definition with_sales (t : list Sale) (db : Db) : Db :=
  mkDb (categories db) (clients db) (products db) (invoices db) (invoiceItems db) t
       (invoices_seq db) (invoiceItems_seq db) (sales_seq db).

(** [and(eq(t.id, id), eq(t.userId, userId))], per table. *)
Definition client_key (id : Z) (userId : UserId) (c : Client) : bool :=
  eqZ (cl_id c) id && eqS (cl_userId c) userId.
Definition product_key (id : Z) (userId : UserId) (p : Product) : bool :=
  eqZ (pr_id p) id && eqS (pr_userId p) userId.
Definition category_key (id : Z) (userId : UserId) (c : Category) : bool :=
  eqZ (cat_id c) id && eqS (cat_userId c) userId.
Definition invoice_key (id : Z) (userId : UserId) (i : Invoice) : bool :=
  eqZ (inv_id i) id && eqS (inv_userId i) userId.

(** [.set(patch)], per table. *)
Definition set_client (p : PartialClient) (c : Client) : Client :=
  mkClient (cl_id c)
           (set_col (pcl_name p) (cl_name c))
           (set_col (pcl_email p) (cl_email c))
           (set_col (pcl_phone p) (cl_phone c))
           (set_col (pcl_address p) (cl_address c))
           (set_col (pcl_company p) (cl_company c))
           (set_col (pcl_userId p) (cl_userId c)).

Definition set_product (p : PartialProduct) (r : Product) : Product :=
  mkProduct (pr_id r)
            (set_col (ppr_name p) (pr_name r))
            (set_col (ppr_description p) (pr_description r))
            (set_col (option_map (stored (decimal 10 2)) (ppr_priceHT p)) (pr_priceHT r))
            (set_col (ppr_stock p) (pr_stock r))
            (set_col (ppr_categoryId p) (pr_categoryId r))
            (set_col (ppr_userId p) (pr_userId r)).

Definition set_category (p : PartialCategory) (c : Category) : Category :=
  mkCategory (cat_id c)
             (set_col (pcat_name p) (cat_name c))
             (set_col (pcat_description p) (cat_description c))
             (set_col (pcat_userId p) (cat_userId c)).

Definition set_invoice (p : PartialInvoice) (i : Invoice) : Invoice :=
  mkInvoice (inv_id i)
            (set_col (pinv_number p) (inv_number i))
            (set_col (pinv_clientId p) (inv_clientId i))
            (set_col (pinv_status p) (inv_status i))
            (set_col (option_map (stored (decimal 10 2)) (pinv_totalHT p)) (inv_totalHT i))
            (set_col (option_map (stored (decimal 5 2)) (pinv_tvaRate p)) (inv_tvaRate i))
            (set_col (option_map (stored (decimal 10 2)) (pinv_totalTVA p)) (inv_totalTVA i))
            (set_col (option_map (stored (decimal 10 2)) (pinv_totalTTC p)) (inv_totalTTC i))
            (set_col (pinv_dueDate p) (inv_dueDate i))
            (set_col (pinv_notes p) (inv_notes i))
            (set_col (pinv_userId p) (inv_userId i)).

(** *** Client operations *)

Definition getClients (userId : UserId) (db : Db) : list Client :=
  select_where (fun c => eqS (cl_userId c) userId) (clients db).

Definition getClient (id : Z) (userId : UserId) (db : Db) : option Client :=
  first (select_where (client_key id userId) (clients db)).

Definition updateClient (id : Z) (client : PartialClient) (userId : UserId) (db : Db)
  : option Client * Db :=
  (first (update_returning (client_key id userId) (set_client client) (clients db)),
   with_clients (update_where (client_key id userId) (set_client client) (clients db)) db).

Definition deleteClient (id : Z) (userId : UserId) (db : Db) : Db :=
  with_clients (delete_where (client_key id userId) (clients db)) db.

(** *** Product operations *)

Definition getProducts (userId : UserId) (db : Db) : list Product :=
  select_where (fun p => eqS (pr_userId p) userId) (products db).

Definition getProduct (id : Z) (userId : UserId) (db : Db) : option Product :=
  first (select_where (product_key id userId) (products db)).

Definition updateProduct (id : Z) (product : PartialProduct) (userId : UserId) (db : Db)
  : option Product * Db :=
  (first (update_returning (product_key id userId) (set_product product) (products db)),
   with_products (update_where (product_key id userId) (set_product product) (products db)) db).

Definition deleteProduct (id : Z) (userId : UserId) (db : Db) : Db :=
  with_products (delete_where (product_key id userId) (products db)) db.

(** *** Category operations *)

Definition getCategories (userId : UserId) (db : Db) : list Category :=
  select_where (fun c => eqS (cat_userId c) userId) (categories db).

Definition getCategory (id : Z) (userId : UserId) (db : Db) : option Category :=
  first (select_where (category_key id userId) (categories db)).

Definition updateCategory (id : Z) (category : PartialCategory) (userId : UserId) (db : Db)
  : option Category * Db :=
  (first (update_returning (category_key id userId) (set_category category) (categories db)),
   with_categories (update_where (category_key id userId) (set_category category) (categories db)) db).

Definition deleteCategory (id : Z) (userId : UserId) (db : Db) : Db :=
  with_categories (delete_where (category_key id userId) (categories db)) db.

(** *** Invoice operations *)

Definition getInvoices (userId : UserId) (db : Db) : list Invoice :=
  select_where (fun i => eqS (inv_userId i) userId) (invoices db).

Definition getInvoice (id : Z) (userId : UserId) (db : Db) : option Invoice :=
  first (select_where (invoice_key id userId) (invoices db)).

(** [.leftJoin(clients, eq(invoices.clientId, clients.id))]: every invoice
    paired with each client of that id, or with [null] when there is none. *)
Definition left_join_clients (cs : list Client) (i : Invoice) : list (Invoice * option Client) :=
  match select_where (fun c => eqZ (inv_clientId i) (cl_id c)) cs with
  | [] => [(i, None)]
  | matches => map (fun c => (i, Some c)) matches
  end.

Definition getInvoiceWithItems (id : Z) (userId : UserId) (db : Db)
  : option (Invoice * list InvoiceItem * option Client) :=
  match first (flat_map (left_join_clients (clients db))
                        (select_where (invoice_key id userId) (invoices db))) with
  | None => None
  | Some (invoice, client) =>
      let items := select_where (fun it => eqZ (it_invoiceId it) id) (invoiceItems db) in
      Some (invoice, items, client)
  end.

(** JavaScript truthiness of [item.productId]: [null], [undefined] and
    [0] are falsy. *)
Definition truthy (productId : option Z) : bool :=
  match productId with
  | Some n => negb (n =? 0)
  | None => false
  end.

(** [GREATEST(0, stock - quantity)]; the store's GREATEST skips a NULL
    argument, so a NULL stock yields 0.  The columns are 32-bit integers:
    where [stock - quantity] leaves that range the store refuses the
    UPDATE, which is outside the model; it cannot leave it when neither
    the stock nor the quantity is negative. *)
Definition greatest0 (stock : option Z) (quantity : Z) : option Z :=
  match stock with
  | Some s => Some (Z.max 0 (s - quantity))
  | None => Some 0
  end.

Definition set_stock (stock : option Z) (p : Product) : Product :=
  mkProduct (pr_id p) (pr_name p) (pr_description p) (pr_priceHT p)
            stock (pr_categoryId p) (pr_userId p).

(** The one UPDATE both helpers issue per line item:
    [update(products).set({stock: GREATEST(0, stock - q)})
     .where(and(eq(products.id, productId), eq(products.userId, userId)))]. *)
Definition decrement_stock (productId : option Z) (quantity : Z) (userId : UserId)
           (ps : list Product) : list Product :=
  match productId with
  | Some pid =>
      update_where (product_key pid userId)
                   (fun p => set_stock (greatest0 (pr_stock p) quantity) p) ps
  | None => ps
  end.

Definition updateStockAfterInvoiceCreation (items : list InsertInvoiceItem)
           (userId : UserId) (db : Db) : Db :=
  with_products
    (fold_left (fun ps item => decrement_stock (nit_productId item) (nit_quantity item) userId ps)
               (filter (fun item => truthy (nit_productId item)) items)
               (products db))
    db.

(** The rows as [.returning()] and later selects give them: a decimal as
    its column prints it ([total_ht decimal(10, 2)], [tva_rate
    decimal(5, 2)], ...), the due date as the instant written. *)
Definition invoice_row (id : Z) (v : InsertInvoice) : Invoice :=
  mkInvoice id (ii_number v) (ii_clientId v)
            (match ii_status v with Some s => s | None => default_status end)
            (stored (decimal 10 2) (ii_totalHT v))
            (stored (decimal 5 2) (ii_tvaRate v))
            (stored (decimal 10 2) (ii_totalTVA v))
            (stored (decimal 10 2) (ii_totalTTC v))
            (ii_dueDate v) (ii_notes v) (ii_userId v).

Definition item_row (id : Z) (v : InsertInvoiceItem) : InvoiceItem :=
  mkInvoiceItem id (nit_invoiceId v) (nit_productId v) (nit_productName v)
                (nit_quantity v)
                (stored (decimal 10 2) (nit_priceHT v))
                (stored (decimal 10 2) (nit_totalHT v)).

(** The values of a sale row.  Those that [createSalesFromInvoice] writes
    were read from [decimal(10, 2)] columns and go into columns of the
    same type, which keep them as they are. *)
Definition sale_row (id : Z) (v : InsertSale) : Sale :=
  mkSale id (ns_invoiceId v) (ns_productId v) (ns_quantity v)
         (ns_unitPrice v) (ns_total v) (ns_userId v).

(** [db.insert(invoices).values(invoice).returning()] *)
Definition insert_invoice (v : InsertInvoice) (db : Db) : Invoice * Db :=
  let row := invoice_row (invoices_seq db) v in
  (row,
   mkDb (categories db) (clients db) (products db) (invoices db ++ [row])
        (invoiceItems db) (sales db)
        (invoices_seq db + 1) (invoiceItems_seq db) (sales_seq db)).

(** [db.insert(invoiceItems).values(rows)] *)
Definition insert_invoiceItems (vs : list InsertInvoiceItem) (db : Db) : Db :=
  mkDb (categories db) (clients db) (products db) (invoices db)
       (invoiceItems db ++ insert_serial item_row (invoiceItems_seq db) vs) (sales db)
       (invoices_seq db) (invoiceItems_seq db + Z.of_nat (List.length vs)) (sales_seq db).

(** [db.insert(sales).values(rows)] *)
Definition insert_sales (vs : list InsertSale) (db : Db) : Db :=
  mkDb (categories db) (clients db) (products db) (invoices db)
       (invoiceItems db) (sales db ++ insert_serial sale_row (sales_seq db) vs)
       (invoices_seq db) (invoiceItems_seq db) (sales_seq db + Z.of_nat (List.length vs)).

Definition createInvoice (invoice : InsertInvoice) (items : list ItemInput) (db : Db)
  : Invoice * Db :=
  let (newInvoice, db1) := insert_invoice invoice db in
  if (0 <? Z.of_nat (List.length items)) then
    let itemsWithInvoiceId :=
      map (fun item => mkInsertInvoiceItem (inv_id newInvoice) (in_productId item)
                         (in_productName item) (in_quantity item)
                         (in_priceHT item) (in_totalHT item))
          items in
    let db2 := insert_invoiceItems itemsWithInvoiceId db1 in
    (newInvoice, updateStockAfterInvoiceCreation itemsWithInvoiceId (ii_userId invoice) db2)
  else (newInvoice, db1).

(** The product key of a line item that passed [filter(item => item.productId)]:
    the source's [item.productId!]. *)
Definition productId_of (it : InvoiceItem) : Z :=
  match it_productId it with
  | Some pid => pid
  | None => 0
  end.

Definition salesData (invoiceId : Z) (userId : UserId) (items : list InvoiceItem)
  : list InsertSale :=
  map (fun item => mkInsertSale invoiceId (productId_of item) (it_quantity item)
                                (it_priceHT item) (it_totalHT item) userId)
      (filter (fun item => truthy (it_productId item)) items).

Definition createSalesFromInvoice (invoiceId : Z) (userId : UserId) (db : Db) : Db :=
  let items := select_where (fun it => eqZ (it_invoiceId it) invoiceId) (invoiceItems db) in
  let data := salesData invoiceId userId items in
  if (0 <? Z.of_nat (List.length data)) then
    let db1 := insert_sales data db in
    with_products
      (fold_left (fun ps item => decrement_stock (it_productId item) (it_quantity item) userId ps)
                 (filter (fun item => truthy (it_productId item)) items)
                 (products db1))
      db1
  else db.

(** [s === 'payee' || s === 'paid'] on a possibly undefined status. *)
Definition is_paid (status : option string) : bool :=
  match status with
  | Some s => String.eqb s "payee" || String.eqb s "paid"
  | None => false
  end.

Definition updateInvoice (id : Z) (invoice : PartialInvoice) (userId : UserId) (db : Db)
  : option Invoice * Db :=
  let currentInvoice := getInvoice id userId db in
  let updatedInvoice :=
    first (update_returning (invoice_key id userId) (set_invoice invoice) (invoices db)) in
  let db1 :=
    with_invoices (update_where (invoice_key id userId) (set_invoice invoice) (invoices db)) db in
  if is_paid (pinv_status invoice)
     && negb (is_paid (option_map inv_status currentInvoice))
  then (updatedInvoice, createSalesFromInvoice id userId db1)
  else (updatedInvoice, db1).

(** [db.delete(sales).where(eq(sales.invoiceId, id))] *)
Definition delete_sales_of (id : Z) (db : Db) : Db :=
  with_sales (delete_where (fun s => eqZ (sa_invoiceId s) id) (sales db)) db.

(** [db.delete(invoiceItems).where(eq(invoiceItems.invoiceId, id))] *)
Definition delete_items_of (id : Z) (db : Db) : Db :=
  with_invoiceItems (delete_where (fun it => eqZ (it_invoiceId it) id) (invoiceItems db)) db.

(** [db.delete(invoices).where(and(eq(invoices.id, id), eq(invoices.userId, userId)))] *)
Definition delete_invoice_row (id : Z) (userId : UserId) (db : Db) : Db :=
  with_invoices (delete_where (invoice_key id userId) (invoices db)) db.

Definition deleteInvoice (id : Z) (userId : UserId) (db : Db) : Db :=
  let db1 := delete_sales_of id db in
  let db2 := delete_items_of id db1 in
  delete_invoice_row id userId db2.

(** *** Sales operations *)

Definition getSales (userId : UserId) (db : Db) : list Sale :=
  select_where (fun s => eqS (sa_userId s) userId) (sales db).

Definition createSale (sale : InsertSale) (db : Db) : Sale * Db :=
  let values :=
    mkInsertSale (ns_invoiceId sale) (ns_productId sale) (ns_quantity sale)
                 (stored (decimal 10 2) (ns_unitPrice sale))
                 (stored (decimal 10 2) (ns_total sale)) (ns_userId sale) in
  (sale_row (sales_seq db) values, insert_sales [values] db).

End Storage.

(** ** [server/routes.ts]: request schemas and handlers *)

Module Routes.
Import Schema Sql Storage.

(** What a handler sends: [res.json(body)] or
    [res.status(code).json({ message })]. *)
Inductive Response (A : Type) : Type :=
| Json (body : A)
| Status (code : Z) (message : string).
Arguments Json {A} body.
Arguments Status {A} code message.

(** The insert schemas are derived from the table columns
    ([createInsertSchema(t).omit(...)]); the source adds no refinement of
    its own to them.  A request body is given here as a value of the record
    type the schema infers (a body of another shape is refused by the
    schema and has no counterpart here); what is left for the schema to
    check on such a value is what the column types declare: the length of a
    [varchar(n)], the 32-bit range of an [integer], and that a [timestamp]
    is a date, which no JSON value is. *)
Definition varchar (n : nat) (s : string) : bool := Nat.leb (String.length s) n.

Definition integer (n : Z) : bool := (-2147483648 <=? n) && (n <=? 2147483647).

(** An optional key, checked when present. *)
Definition optional {A : Type} (check : A -> bool) (v : option A) : bool :=
  match v with
  | Some x => check x
  | None => true
  end.




Definition insertInvoiceSchema_partial_parse (body : PartialInvoice) : option PartialInvoice :=
  if optional (varchar 50) (pinv_number body)
     && optional integer (pinv_clientId body)
     && optional (varchar 50) (pinv_status body)
     && optional (optional (fun _ : Timestamp => false)) (pinv_dueDate body)
  then Some body else None.

(** [insertInvoiceSchema.omit({ userId: true }).extend({ dueDate: ... })]:
    [dueDate] is a string in the body ([InvoiceBody]) and a [Date] in what
    the schema returns. *)
Record InvoiceBodyOf {D : Type} := mkInvoiceBody {
  b_number : string;
  b_clientId : Z;
  b_status : option string;
  b_totalHT : Decimal;
  b_tvaRate : Decimal;
  b_totalTVA : Decimal;
  b_totalTTC : Decimal;
  b_dueDate : option D;
  b_notes : option string
}.
Arguments mkInvoiceBody {D}.

Definition InvoiceBody := @InvoiceBodyOf string.

(** [createInvoiceSchema]: [{ invoice, items }]. *)
Record CreateInvoiceBody := mkCreateInvoiceBody {
  b_invoice : InvoiceBody;
  b_items : list ItemInput
}.

(** [new Date(val)] on a string; [Date_parse] is the engine's
    [Date.parse], [None] where it gives [NaN].  Only the date time string
    format of ECMAScript is read alike by all engines, so the parser is a
    parameter. *)
Definition new_Date (Date_parse : string -> option Timestamp) (val : string) : Date :=
  match Date_parse val with
  | Some t => Time t
  | None => InvalidDate
  end.

(** [.transform(val => val ? new Date(val) : undefined)]: the empty
    string is falsy. *)
Definition dueDate_transform (Date_parse : string -> option Timestamp)
           (val : option string) : option Date :=
  match val with
  | Some "" => None
  | Some v => Some (new_Date Date_parse v)
  | None => None
  end.

(** [insertInvoiceItemSchema.omit({ invoiceId: true })] *)
Definition insertInvoiceItemSchema (item : ItemInput) : bool :=
  optional integer (in_productId item)
  && varchar 255 (in_productName item)
  && integer (in_quantity item).

(** [createInvoiceSchema.parse(req.body)]; the array of items carries no
    [min]. *)
Definition createInvoiceSchema_parse (Date_parse : string -> option Timestamp)
           (body : CreateInvoiceBody)
  : option (@InvoiceBodyOf Date * list ItemInput) :=
  let i := b_invoice body in
  if varchar 50 (b_number i)
     && integer (b_clientId i)
     && optional (varchar 50) (b_status i)
     && forallb insertInvoiceItemSchema (b_items body)
  then Some (mkInvoiceBody (b_number i) (b_clientId i) (b_status i) (b_totalHT i)
                           (b_tvaRate i) (b_totalTVA i) (b_totalTTC i)
                           (dueDate_transform Date_parse (b_dueDate i)) (b_notes i),
             b_items body)
  else None.

(** The driver writes a [Date] through [toISOString], which throws on an
    Invalid Date: [None].  Otherwise the column gets the instant. *)
Definition toISOString (dueDate : option Date) : option (option Timestamp) :=
  match dueDate with
  | Some (Time t) => Some (Some t)
  | Some InvalidDate => None
  | None => Some None
  end.

(** [app.post("/api/invoices", ...)].  With an Invalid Date the first
    insert of [createInvoice] throws before anything is written, and the
    handler's [catch] answers 400. *)
Definition post_invoices (Date_parse : string -> option Timestamp)
           (userId : UserId) (body : CreateInvoiceBody) (db : Db)
  : Response Invoice * Db :=
  match createInvoiceSchema_parse Date_parse body with
  | Some (invoice, items) =>
      match toISOString (b_dueDate invoice) with
      | Some dueDate =>
          let invoiceData :=
            mkInsertInvoice (b_number invoice) (b_clientId invoice) (b_status invoice)
                            (b_totalHT invoice) (b_tvaRate invoice) (b_totalTVA invoice)
                            (b_totalTTC invoice) dueDate (b_notes invoice) userId in
          let (newInvoice, db') := createInvoice invoiceData items db in
          (Json newInvoice, db')
      | None => (Status 400 "Failed to create invoice", db)
      end
  | None => (Status 400 "Failed to create invoice", db)
  end.

(** [app.put("/api/invoices/:id", ...)] *)
Definition put_invoices (userId : UserId) (id : Z) (body : PartialInvoice) (db : Db)
  : Response (option Invoice) * Db :=
  match insertInvoiceSchema_partial_parse body with
  | Some invoiceData =>
      let (invoice, db') := updateInvoice id invoiceData userId db in
      (Json invoice, db')
  | None => (Status 400 "Failed to update invoice", db)
  end.




(** [app.get("/api/clients/:id", ...)] *)
Definition get_client (userId : UserId) (id : Z) (db : Db) : Response Client :=
  match getClient id userId db with
  | Some client => Json client
  | None => Status 404 "Client not found"
  end.

(** [app.get("/api/invoices/:id", ...)] *)
Definition get_invoice (userId : UserId) (id : Z) (db : Db)
  : Response (Invoice * list InvoiceItem * option Client) :=
  match getInvoiceWithItems id userId db with
  | Some invoice => Json invoice
  | None => Status 404 "Invoice not found"
  end.

(** [app.delete("/api/invoices/:id", ...)] *)
Definition delete_invoice (userId : UserId) (id : Z) (db : Db) : Response string * Db :=
  (Json "Invoice deleted successfully", deleteInvoice id userId db).

End Routes.

(** ** [client/src/pages/invoices.tsx]: the invoice form *)

Module InvoiceForm.
Import Schema.

(** *** Numbers

    The form computes on JavaScript numbers: IEEE 754 binary64, round to
    nearest even.  They are the [spec_float] of the standard library at
    precision 53 and maximal exponent 1024, with its arithmetic. *)
Definition number := spec_float.

Definition prec : Z := 53.
Definition emax : Z := 1024.

Definition num_add (a b : number) : number := SFadd prec emax a b.
Definition num_mul (a b : number) : number := SFmul prec emax a b.
Definition num_div (a b : number) : number := SFdiv prec emax a b.

(** An integer as a number. *)
Definition of_int (n : Z) : number := binary_normalize prec emax n 0 false.

(** The number nearest to [m * 10 ^ k], for [m] not negative. *)
Definition of_decimal (neg : bool) (m k : Z) : number :=
  match m with
  | Z0 => S754_zero neg
  | Zpos p =>
      if 0 <=? k then binary_round prec emax neg (Z.to_pos (m * 10 ^ k)) 0
      else
        let '(q, e, l) := SFdiv_core_binary prec emax m 0 (10 ^ (- k)) 0 in
        binary_round_aux prec emax neg q e l
  | Zneg _ => S754_nan
  end.

(** The exact value of a finite number. *)
Definition exact (m : positive) (e : Z) : Q :=
  if 0 <=? e then inject_Z (Zpos m * 2 ^ e) else Qmake (Zpos m) (Z.to_pos (2 ^ (- e))).

(** *** [parseFloat]: the longest decimal literal after leading blanks *)

Definition is_space (c : ascii) : bool :=
  let n := nat_of_ascii c in
  (Nat.eqb n 32 || (Nat.leb 9 n && Nat.leb n 13))%bool.

Definition is_digit (c : ascii) : bool :=
  let n := nat_of_ascii c in
  (Nat.leb 48 n && Nat.leb n 57)%bool.

Definition digit_value (c : ascii) : Z := Z.of_nat (nat_of_ascii c) - 48.

Fixpoint trim_start (s : string) : string :=
  match s with
  | String c r => if is_space c then trim_start r else s
  | EmptyString => s
  end.

(** Reads a run of digits onto [acc]; returns the value, the number of
    digits read and the rest. *)
Fixpoint read_digits (acc : Z) (count : nat) (s : string) : Z * nat * string :=
  match s with
  | String c r =>
      if is_digit c then read_digits (10 * acc + digit_value c) (S count) r
      else (acc, count, s)
  | EmptyString => (acc, count, s)
  end.

Definition read_sign (s : string) : bool * string :=
  match s with
  | String "-" r => (true, r)
  | String "+" r => (false, r)
  | _ => (false, s)
  end.

(** [e] or [E], an optional sign and at least one digit; otherwise no
    exponent is read. *)
Definition read_exponent (s : string) : Z :=
  match s with
  | String c r =>
      if (Ascii.eqb c "e" || Ascii.eqb c "E")%bool then
        let (neg, r1) := read_sign r in
        let '(e, n, _) := read_digits 0 0 r1 in
        if Nat.eqb n 0 then 0 else if neg then - e else e
      else 0
  | EmptyString => 0
  end.

Definition parseFloat (s : string) : number :=
  let (neg, s1) := read_sign (trim_start s) in
  if String.prefix "Infinity" s1 then S754_infinity neg
  else
    let '(ip, ni, s2) := read_digits 0 0 s1 in
    let '(m, nf, s3) :=
      match s2 with
      | String "." r => read_digits ip 0 r
      | _ => (ip, 0%nat, s2)
      end in
    if Nat.eqb (ni + nf) 0 then S754_nan
    else of_decimal neg m (read_exponent s3 - Z.of_nat nf).

(** *** [toFixed(2)] *)

(** The integer [n] for which [n / 100 - x] is closest to zero, the larger
    one on a tie ([x] not negative). *)
Definition round2 (x : Q) : Z := Qfloor (x * 100 + (1 # 2))%Q.

Definition digit_char (d : Z) : ascii := ascii_of_nat (Z.to_nat (48 + d)).

Definition string_of_nonneg (n : Z) : string :=
  DecimalString.NilZero.string_of_uint (N.to_uint (Z.to_N n)).

(** [n] hundredths written with two decimals. *)
Definition render_cents (n : Z) : string :=
  string_of_nonneg (n / 100)
    ++ String "." (String (digit_char (n mod 100 / 10))
                          (String (digit_char (n mod 10)) EmptyString)).

(** [String(x)] from [1e21] on, where [x] is the integer [X] of [n]
    digits: of the decimals that read back as [x] the one of fewest
    digits, and of these the one closest to [x] (the even one on a tie),
    in exponent notation. *)
Definition reads_back (X s k : Z) : bool :=
  match of_decimal false s k with
  | S754_finite _ m e => Qeq_bool (exact m e) (inject_Z X)
  | _ => false
  end.

Definition digits_at (X n k : Z) : option Z :=
  let unit := 10 ^ (n - k) in
  let lo := X / unit in
  let hi := lo + 1 in
  match reads_back X lo (n - k), reads_back X hi (n - k) with
  | true, true =>
      if X - lo * unit <? hi * unit - X then Some lo
      else if hi * unit - X <? X - lo * unit then Some hi
      else Some (if Z.even lo then lo else hi)
  | true, false => Some lo
  | false, true => Some hi
  | false, false => None
  end.

(** The digits and their number; seventeen always suffice. *)
Fixpoint shortest (X n k : Z) (fuel : nat) : Z * Z :=
  match fuel with
  | O => (X / 10 ^ (n - k), k)
  | S fuel' =>
      match digits_at X n k with
      | Some s => (s, k)
      | None => shortest X n (k + 1) fuel'
      end
  end.

Definition exponential (X : Z) : string :=
  let n := Z.of_nat (String.length (string_of_nonneg X)) in
  let (s, k) := shortest X n 1 17 in
  let (s, n) := if s =? 10 ^ k then (1, n + 1) else (s, n) in
  match string_of_nonneg s with
  | String d EmptyString => String d ("e+" ++ string_of_nonneg (n - 1))
  | String d rest => String d (String "." (rest ++ "e+" ++ string_of_nonneg (n - 1)))
  | EmptyString => EmptyString
  end.

(** [x.toFixed(2)]: two decimals below [1e21], [String(x)] from there
    on.  It always renders. *)
Definition toFixed (x : number) : option string :=
  match x with
  | S754_nan => Some "NaN"
  | S754_infinity false => Some "Infinity"
  | S754_infinity true => Some "-Infinity"
  | S754_zero _ => Some "0.00"
  | S754_finite neg m e =>
      if Qle_bool (inject_Z (10 ^ 21)) (exact m e)
      then Some ((if neg then "-" else "") ++ exponential (Zpos m * 2 ^ e))
      else Some ((if neg then "-" else "") ++ render_cents (round2 (exact m e)))
  end.

(** *** The form and its schema *)

Record FormItem := mkFormItem {
  fi_productId : option Z;
  fi_productName : string;
  fi_quantity : Z;
  fi_priceHT : string
}.

Record CreateInvoiceForm := mkCreateInvoiceForm {
  f_clientId : Z;
  f_status : string;
  f_tvaRate : string;
  f_dueDate : option string;
  f_notes : option string;
  f_items : list FormItem
}.

(** [z.string().min(1, ...)] *)
Definition string_min1 (s : string) : bool := Nat.leb 1 (String.length s).

(** [createInvoiceFormSchema], as a check. *)
Definition item_schema (item : FormItem) : bool :=
  (string_min1 (fi_productName item)
   && (1 <=? fi_quantity item)
   && string_min1 (fi_priceHT item))%bool.

Definition createInvoiceFormSchema (data : CreateInvoiceForm) : bool :=
  ((1 <=? f_clientId data)
   && string_min1 (f_status data)
   && string_min1 (f_tvaRate data)
   && forallb item_schema (f_items data)
   && Nat.leb 1 (List.length (f_items data)))%bool.

(** [TAX_RATES], the values of the rate selector. *)
Definition TAX_RATES : list string :=
  ["3.00"; "5.00"; "10.00"; "15.00"; "18.00"; "21.00"].

(** [INVOICE_STATUS], the values of the status selector. *)
Definition INVOICE_STATUS : list string :=
  ["en_attente"; "payee"; "partiellement_reglee"].

(** *** [createMutation.mutationFn] *)

(** [item.quantity * parseFloat(item.priceHT)] *)
Definition line_total (item : FormItem) : number :=
  num_mul (of_int (fi_quantity item)) (parseFloat (fi_priceHT item)).

Definition totalHT (data : CreateInvoiceForm) : number :=
  fold_left (fun sum item => num_add sum (line_total item)) (f_items data) (of_int 0).

Definition tvaRateNum (data : CreateInvoiceForm) : number := parseFloat (f_tvaRate data).

Definition totalTVA (data : CreateInvoiceForm) : number :=
  num_mul (totalHT data) (num_div (tvaRateNum data) (of_int 100)).

Definition totalTTC (data : CreateInvoiceForm) : number :=
  num_add (totalHT data) (totalTVA data).

(** [item.productId || null] *)
Definition productId_or_null (productId : option Z) : option Z :=
  match productId with
  | Some n => if n =? 0 then None else Some n
  | None => None
  end.

(** [data.dueDate ? new Date(data.dueDate) : null]; the [Date] is held
    by the text it is made from. *)
Definition dueDate_or_null (dueDate : option string) : option string :=
  match dueDate with
  | Some "" => None
  | Some d => Some d
  | None => None
  end.

Definition item_payload (item : FormItem) : option ItemInput :=
  match toFixed (line_total item) with
  | Some total =>
      Some (mkItemInput (productId_or_null (fi_productId item)) (fi_productName item)
                        (fi_quantity item) (fi_priceHT item) total)
  | None => None
  end.

Fixpoint items_payload (items : list FormItem) : option (list ItemInput) :=
  match items with
  | [] => Some []
  | item :: rest =>
      match item_payload item, items_payload rest with
      | Some i, Some r => Some (i :: r)
      | _, _ => None
      end
  end.

(** The [InsertInvoice] of the page. *)
Definition InvoiceData := @InsertInvoiceOf string.

(** The body posted to [/api/invoices]; [number] is the result of
    [generateInvoiceNumber()]. *)
Definition mutationFn (invoiceNumber : string) (data : CreateInvoiceForm)
  : option (InvoiceData * list ItemInput) :=
  match toFixed (totalHT data), toFixed (totalTVA data), toFixed (totalTTC data),
        items_payload (f_items data) with
  | Some ht, Some tva, Some ttc, Some items =>
      Some (mkInsertInvoice invoiceNumber (f_clientId data) (Some (f_status data))
                            ht (f_tvaRate data) tva ttc
                            (dueDate_or_null (f_dueDate data)) (f_notes data) "",
            items)
  | _, _, _, _ => None
  end.

(** [form.handleSubmit(onSubmit)]: the mutation runs only on data the
    resolver accepts; otherwise the form shows the schema's messages and
    sends nothing. *)
Inductive Submission : Type :=
| Invalid
| Sent (body : option (InvoiceData * list ItemInput)).

Definition handleSubmit (invoiceNumber : string) (data : CreateInvoiceForm) : Submission :=
  if createInvoiceFormSchema data then Sent (mutationFn invoiceNumber data) else Invalid.

End InvoiceForm.

(** ** Vocabulary of the statements *)

Module Ledger.
Import Schema Sql Storage.






(** A line item references a product: the key is not null. *)
Definition has_product (it : InvoiceItem) : bool :=
  match it_productId it with
  | Some _ => true
  | None => false
  end.

(** A sale copies a line item. *)
Definition sale_copies (invoiceId : Z) (userId : UserId) (it : InvoiceItem) (s : Sale) : Prop :=
  sa_invoiceId s = invoiceId /\
  it_productId it = Some (sa_productId s) /\
  sa_quantity s = it_quantity it /\
  sa_unitPrice s = it_priceHT it /\
  sa_total s = it_totalHT it /\
  sa_userId s = userId.

(** The line items of an invoice, as [createSalesFromInvoice] selects them. *)
Definition items_of (invoiceId : Z) (db : Db) : list InvoiceItem :=
  select_where (fun it => eqZ (it_invoiceId it) invoiceId) (invoiceItems db).

(** The product table after the settlement loop of [createSalesFromInvoice]. *)
Definition settled_products (invoiceId : Z) (userId : UserId) (db : Db) : list Product :=
  fold_left (fun ps item => decrement_stock (it_productId item) (it_quantity item) userId ps)
            (filter (fun item => truthy (it_productId item)) (items_of invoiceId db))
            (products db).


End Ledger.

(** ** A worked scenario: two tenants, one product, one invoice *)

Module Scenario.
Import Schema Sql Columns Storage Routes InvoiceForm Ledger.

Definition tenantA : UserId := "tenant-a".
Definition tenantB : UserId := "tenant-b".

(** The days from the epoch to the first of month [m] of year [y]. *)
Definition days_to_month (y m : Z) : Z :=
  let y' := if m <=? 2 then y - 1 else y in
  let era := y' / 400 in
  let yoe := y' - era * 400 in
  let mp := (m + 9) mod 12 in
  era * 146097 + (yoe * 365 + yoe / 4 - yoe / 100 + (153 * mp + 2) / 5) - 719468.

(** The server's [Date.parse] on the date-only form [YYYY-MM-DD] of
    ECMAScript's date time string format: UTC midnight of that day (V8
    takes a day from 01 to 31 in any month and counts on from the first).
    The scenario has no date in another form; what the engine makes of
    other strings is left out. *)
Definition date_only (s : string) : option Timestamp :=
  match digits 0 0 s with
  | (y, 4%nat, String "-" s1) =>
      match digits 0 0 s1 with
      | (m, 2%nat, String "-" s2) =>
          match digits 0 0 s2 with
          | (d, 2%nat, EmptyString) =>
              if (1 <=? m) && (m <=? 12) && (1 <=? d) && (d <=? 31)
              then Some ((days_to_month y m + d - 1) * 86400000)
              else None
          | _ => None
          end
      | _ => None
      end
  | _ => None
  end.

Definition acme : Client := mkClient 1 "Acme" None None None None tenantA.

Definition productA (stock : Z) : Product :=
  mkProduct 1 "Product A" None "1000.00" (Some stock) None tenantA.

(** One client and one product with the given stock; nothing invoiced. *)
Definition db_start (stock : Z) : Db :=
  mkDb [] [acme] [productA stock] [] [] [] 1 1 1.

(** The form as filled in: product A three times at 1000, one ad-hoc line
    at 500, 18% tax. *)
Definition form (status : string) : CreateInvoiceForm :=
  mkCreateInvoiceForm 1 status "18.00" (Some "2025-02-28") None
    [mkFormItem (Some 1) "Product A" 3 "1000.00"; mkFormItem None "Ad-hoc" 1 "500.00"].

Definition items : list ItemInput :=
  [mkItemInput (Some 1) "Product A" 3 "1000.00" "3000.00";
   mkItemInput None "Ad-hoc" 1 "500.00" "500.00"].

Definition body (status : string) (items : list ItemInput) : CreateInvoiceBody :=
  mkCreateInvoiceBody
    (mkInvoiceBody "FAC-2025-001" 1 (Some status) "3500.00" "18.00" "630.00" "4130.00"
                   (Some "2025-02-28") None)
    items.

(** [{ status }], the body [updateStatusMutation] sends. *)
Definition status_patch (status : string) : PartialInvoice :=
  mkPartialInvoice None None (Some status) None None None None None None None.

(** Tenant A posts the invoice with the given initial status. *)
Definition db_created (status : string) (stock : Z) : Db :=
  snd (post_invoices date_only tenantA (body status items) (db_start stock)).

(** ... and then marks it paid. *)
Definition db_settled (stock : Z) : Db :=
  snd (put_invoices tenantA 1 (status_patch "payee") (db_created "en_attente" stock)).

(** ... then sets it back to pending, and marks it paid once more. *)
Definition db_reverted (stock : Z) : Db :=
  snd (put_invoices tenantA 1 (status_patch "en_attente") (db_settled stock)).

Definition db_resettled (stock : Z) : Db :=
  snd (put_invoices tenantA 1 (status_patch "payee") (db_reverted stock)).




(** The form filled with a negative price and a 7% rate. *)
Definition odd_form : CreateInvoiceForm :=
  mkCreateInvoiceForm 1 "en cours" "7.00" None None
    [mkFormItem (Some 1) "Product A" 2 "-5.00"].

(** One line at 0.50, 3% tax. *)
Definition small_form : CreateInvoiceForm :=
  mkCreateInvoiceForm 1 "en_attente" "3.00" (Some "2025-02-28") None
    [mkFormItem (Some 1) "Product A" 1 "0.50"].


End Scenario.

(** ** [server/storage.ts] and [server/routes.ts]: creating clients,
    products and categories *)

Module Catalog.
Import Schema Sql Columns Storage Routes.

(** [InsertClient], [InsertProduct], [InsertCategory]: the rows without
    [id].  A nullable column left out or sent as [null] is stored as NULL;
    [stock] has a column default, so leaving it out ([None]) differs from
    sending [null] ([Some None]). *)
Record InsertClient := mkInsertClient {
  ic_name : string;
  ic_email : option string;
  ic_phone : option string;
  ic_address : option string;
  ic_company : option string;
  ic_userId : UserId
}.

Record InsertProduct := mkInsertProduct {
  ip_name : string;
  ip_description : option string;
  ip_priceHT : Decimal;
  ip_stock : option (option Z);
  ip_categoryId : option Z;
  ip_userId : UserId
}.

Record InsertCategory := mkInsertCategory {
  icat_name : string;
  icat_description : option string;
  icat_userId : UserId
}.

(** The store with the [serial] sequences of the three tables. *)
Record Store := mkStore {
  st_db : Db;
  clients_seq : Z;
  products_seq : Z;
  categories_seq : Z
}.

Definition client_row (id : Z) (v : InsertClient) : Client :=
  mkClient id (ic_name v) (ic_email v) (ic_phone v) (ic_address v) (ic_company v)
           (ic_userId v).

(** [stock: integer("stock").default(0)]; [price_ht decimal(10, 2)] *)
Definition product_row (id : Z) (v : InsertProduct) : Product :=
  mkProduct id (ip_name v) (ip_description v) (stored (decimal 10 2) (ip_priceHT v))
            (match ip_stock v with Some stock => stock | None => Some 0 end)
            (ip_categoryId v) (ip_userId v).

Definition category_row (id : Z) (v : InsertCategory) : Category :=
  mkCategory id (icat_name v) (icat_description v) (icat_userId v).

Definition createClient (client : InsertClient) (st : Store) : Client * Store :=
  let newClient := client_row (clients_seq st) client in
  (newClient,
   mkStore (with_clients (clients (st_db st) ++ [newClient]) (st_db st))
           (clients_seq st + 1) (products_seq st) (categories_seq st)).

Definition createProduct (product : InsertProduct) (st : Store) : Product * Store :=
  let newProduct := product_row (products_seq st) product in
  (newProduct,
   mkStore (with_products (products (st_db st) ++ [newProduct]) (st_db st))
           (clients_seq st) (products_seq st + 1) (categories_seq st)).

Definition createCategory (category : InsertCategory) (st : Store) : Category * Store :=
  let newCategory := category_row (categories_seq st) category in
  (newCategory,
   mkStore (with_categories (categories (st_db st) ++ [newCategory]) (st_db st))
           (clients_seq st) (products_seq st) (categories_seq st + 1)).

(** The request bodies: the keys of the insert schema a caller may send,
    [userId] among them. *)
Record ClientBody := mkClientBody {
  cb_name : string;
  cb_email : option string;
  cb_phone : option string;
  cb_address : option string;
  cb_company : option string;
  cb_userId : option UserId
}.

Record ProductBody := mkProductBody {
  pb_name : string;
  pb_description : option string;
  pb_priceHT : Decimal;
  pb_stock : option (option Z);
  pb_categoryId : option Z;
  pb_userId : option UserId
}.

Record CategoryBody := mkCategoryBody {
  catb_name : string;
  catb_description : option string;
  catb_userId : option UserId
}.

(** [insertClientSchema.parse({ ...req.body, userId })]: the spread puts the
    session's [userId] over the body's. *)
Definition insertClientSchema_parse (body : ClientBody) (userId : UserId) : option InsertClient :=
  if varchar 255 (cb_name body)
     && optional (varchar 255) (cb_email body)
     && optional (varchar 50) (cb_phone body)
     && optional (varchar 255) (cb_company body)
  then Some (mkInsertClient (cb_name body) (cb_email body) (cb_phone body)
                            (cb_address body) (cb_company body) userId)
  else None.

Definition insertProductSchema_parse (body : ProductBody) (userId : UserId) : option InsertProduct :=
  if varchar 255 (pb_name body)
     && optional (optional integer) (pb_stock body)
     && optional integer (pb_categoryId body)
  then Some (mkInsertProduct (pb_name body) (pb_description body) (pb_priceHT body)
                             (pb_stock body) (pb_categoryId body) userId)
  else None.

Definition insertCategorySchema_parse (body : CategoryBody) (userId : UserId)
  : option InsertCategory :=
  if varchar 255 (catb_name body)
  then Some (mkInsertCategory (catb_name body) (catb_description body) userId)
  else None.

(** [app.post("/api/clients", ...)] *)
Definition post_clients (userId : UserId) (body : ClientBody) (st : Store)
  : Response Client * Store :=
  match insertClientSchema_parse body userId with
  | Some clientData =>
      let (client, st') := createClient clientData st in (Json client, st')
  | None => (Status 400 "Failed to create client", st)
  end.

(** [app.post("/api/products", ...)] *)
Definition post_products (userId : UserId) (body : ProductBody) (st : Store)
  : Response Product * Store :=
  match insertProductSchema_parse body userId with
  | Some productData =>
      let (product, st') := createProduct productData st in (Json product, st')
  | None => (Status 400 "Failed to create product", st)
  end.

(** [app.post("/api/categories", ...)] *)
Definition post_categories (userId : UserId) (body : CategoryBody) (st : Store)
  : Response Category * Store :=
  match insertCategorySchema_parse body userId with
  | Some categoryData =>
      let (category, st') := createCategory categoryData st in (Json category, st')
  | None => (Status 400 "Failed to create category", st)
  end.

(** The keys of the three tables are below their sequences. *)
Definition catalog_keys_ok (st : Store) : Prop :=
  Forall (fun c => cl_id c < clients_seq st) (clients (st_db st))
  /\ Forall (fun p => pr_id p < products_seq st) (products (st_db st))
  /\ Forall (fun c => cat_id c < categories_seq st) (categories (st_db st)).

End Catalog.

(** ** [server/storage.ts]: the queries of [getDashboardStats]

    The revenue and the stock alert, each as the source issues it.  (The
    three counts are plain row counts of a tenant's list;
    [recentInvoices] is ordered by [createdAt] and [topProducts] by a
    count with ties, which the list model does not order; they are left
    out.) *)

Module Dashboard.
Import Schema Sql Storage InvoiceForm.

(** [eq(products.stock, 0)]: a NULL stock does not compare equal. *)
Definition stock_is_zero (p : Product) : bool :=
  match pr_stock p with
  | Some s => s =? 0
  | None => false
  end.

(** The query commented "Low stock products (stock < 10)":
    [.where(and(eq(products.userId, userId), eq(products.stock, 0))).limit(10)].
    The query has no [orderBy]: which ten rows come back is the store's
    choice; the list takes them in table order. *)
Definition lowStockProducts (userId : UserId) (db : Db) : list Product :=
  firstn 10 (select_where (fun p => eqS (pr_userId p) userId && stock_is_zero p) (products db)).

(** The rows the revenue sums:
    [and(eq(invoices.userId, userId), eq(invoices.status, "payee"))] *)
Definition revenue_rows (userId : UserId) (db : Db) : list Invoice :=
  select_where (fun i => eqS (inv_userId i) userId && String.eqb (inv_status i) "payee")
               (invoices db).

(** [sum(invoices.totalTTC)] in hundredths, NULL over no row; [hundredths]
    is the store's reading of a [decimal(10, 2)] text. *)
Definition revenue_sum (hundredths : Decimal -> Z) (userId : UserId) (db : Db) : option Z :=
  match revenue_rows userId db with
  | [] => None
  | rows => Some (fold_right Z.add 0 (map (fun i => hundredths (inv_totalTTC i)) rows))
  end.

(** [parseFloat(revenueResult[0]?.total || "0")]: the number nearest to the
    sum as the store prints it, with two decimals. *)
Definition revenue (hundredths : Decimal -> Z) (userId : UserId) (db : Db) : number :=
  match revenue_sum hundredths userId db with
  | Some c => of_decimal (c <? 0) (Z.abs c) (-2)
  | None => S754_zero false
  end.

End Dashboard.

(** ** [client/src/pages/invoices.tsx]: numbering, preview and submission *)

Module InvoicePage.
Import Schema Storage Routes InvoiceForm.

(** [s.padStart(3, '0')] *)
Definition padStart3 (s : string) : string :=
  match String.length s with
  | 0%nat => "000" ++ s
  | 1%nat => "00" ++ s
  | 2%nat => "0" ++ s
  | _ => s
  end.

(** [generateInvoiceNumber]; [year] is [new Date().getFullYear()]. *)
Definition generateInvoiceNumber (year : N) (invoices : list Invoice) : string :=
  let invoiceCount := Z.of_nat (List.length invoices) + 1 in
  "FAC-" ++ string_of_nonneg (Z.of_N year) ++ "-" ++ padStart3 (string_of_nonneg invoiceCount).

(** [s || fallback] on a string: the empty string is falsy. *)
Definition or_default (s fallback : string) : string :=
  match s with
  | EmptyString => fallback
  | _ => s
  end.

(** The totals shown under the form while it is filled in. *)
Definition subtotal (watchedItems : list FormItem) : number :=
  fold_left (fun sum item =>
               num_add sum (num_mul (of_int (fi_quantity item))
                                    (parseFloat (or_default (fi_priceHT item) "0"))))
            watchedItems (of_int 0).

Definition preview_tvaRateNum (watchedTvaRate : string) : number :=
  parseFloat (or_default watchedTvaRate "18.00").

Definition tax (watchedItems : list FormItem) (watchedTvaRate : string) : number :=
  num_mul (subtotal watchedItems) (num_div (preview_tvaRateNum watchedTvaRate) (of_int 100)).

Definition total (watchedItems : list FormItem) (watchedTvaRate : string) : number :=
  num_add (subtotal watchedItems) (tax watchedItems watchedTvaRate).

(** *** From the form to the server

    Modelled from the spec: [apiRequest] is not among the sources; by the
    specification's external interfaces the request body travels as JSON.
    In JSON the invoice's [dueDate] is the date's ISO text, or [null] when
    the form has no date or the date is invalid; the item's [productId] is
    a number or [null].  [date_toJSON] is [new Date(d).toJSON()], [None]
    for an invalid date. *)
Record WireInvoice := mkWireInvoice {
  w_number : string;
  w_clientId : Z;
  w_status : option string;
  w_totalHT : Decimal;
  w_tvaRate : Decimal;
  w_totalTVA : Decimal;
  w_totalTTC : Decimal;
  w_dueDate : option string;
  w_notes : option string;
  w_userId : UserId
}.

Definition to_wire (date_toJSON : string -> option string) (invoice : InvoiceData)
  : WireInvoice :=
  mkWireInvoice (ii_number invoice) (ii_clientId invoice) (ii_status invoice)
                (ii_totalHT invoice) (ii_tvaRate invoice) (ii_totalTVA invoice)
                (ii_totalTTC invoice)
                (match ii_dueDate invoice with
                 | Some d => date_toJSON d
                 | None => None
                 end)
                (ii_notes invoice) (ii_userId invoice).

(** The body as [createInvoiceSchema] sees it: [userId] is not a key of the
    schema and is dropped; [dueDate] is [z.string().optional()], which
    refuses [null]. *)
Definition from_wire (invoice : WireInvoice) (items : list ItemInput)
  : option CreateInvoiceBody :=
  match w_dueDate invoice with
  | Some dueDate =>
      Some (mkCreateInvoiceBody
              (mkInvoiceBody (w_number invoice) (w_clientId invoice) (w_status invoice)
                             (w_totalHT invoice) (w_tvaRate invoice) (w_totalTVA invoice)
                             (w_totalTTC invoice) (Some dueDate) (w_notes invoice))
              items)
  | None => None
  end.

(** What became of a submission. *)
Inductive Outcome : Type :=
| NotSubmitted
| NotRendered
| Answered (response : Response Invoice).

(** [form.handleSubmit(onSubmit)] down to the server's answer, for the
    signed-in [userId]; [Date_parse] is the server's. *)
Definition submit (date_toJSON : string -> option string)
           (Date_parse : string -> option Timestamp) (userId : UserId)
           (invoiceNumber : string) (data : CreateInvoiceForm) (db : Db) : Outcome * Db :=
  match handleSubmit invoiceNumber data with
  | Invalid => (NotSubmitted, db)
  | Sent None => (NotRendered, db)
  | Sent (Some (invoice, items)) =>
      match from_wire (to_wire date_toJSON invoice) items with
      | Some body =>
          let (response, db') := post_invoices Date_parse userId body db in
          (Answered response, db')
      | None => (Answered (Status 400 "Failed to create invoice"), db)
      end
  end.

End InvoicePage.

(** ** Vocabulary of the further statements *)

Module Keys.
Import Schema Sql Columns Storage Routes Ledger.

(** Primary keys: below the table's sequence and pairwise distinct; a line
    item and a sale belong to an invoice number already issued. *)
Definition keys_ok (db : Db) : Prop :=
  Forall (fun i => inv_id i < invoices_seq db) (invoices db)
  /\ NoDup (map inv_id (invoices db))
  /\ Forall (fun it => it_id it < invoiceItems_seq db /\ it_invoiceId it < invoices_seq db)
            (invoiceItems db)
  /\ NoDup (map it_id (invoiceItems db))
  /\ Forall (fun s => sa_id s < sales_seq db /\ sa_invoiceId s < invoices_seq db) (sales db)
  /\ NoDup (map sa_id (sales db)).













(** Two stores that differ at most in their invoice table and in the
    sequences of invoices and line items: what the settlement helper reads
    is the same in both. *)
Definition same_ledger (a b : Db) : Prop :=
  invoiceItems a = invoiceItems b /\ products a = products b
  /\ sales a = sales b /\ sales_seq a = sales_seq b.

End Keys.

(** * Properties *)

Import Schema Sql Storage Ledger.

(** ** The query builder *)

Section SqlFacts.
Context {R : Type}.
Implicit Types (c : R -> bool) (f : R -> R) (t : list R).


Lemma select_after_delete c t :
  select_where c (delete_where c t) = [].
Proof.
  unfold select_where, delete_where.
  induction t as [|r t IH]; simpl; [reflexivity|].
  destruct (c r) eqn:E; simpl; [exact IH|].
  rewrite E. exact IH.
Qed.


(** A key under which the table has no row: the keyed statements find
    nothing and change nothing. *)
Lemma keyed_statements_miss c f t :
  select_where c t = [] ->
  first (select_where c t) = None /\ update_where c f t = t /\ delete_where c t = t.
Proof.
  intros H. split; [now rewrite H|].
  unfold select_where, update_where, delete_where in *.
  induction t as [|r t IH]; simpl in *; [now split|].
  destruct (c r) eqn:E; [discriminate|].
  destruct (IH H) as [IH1 IH2]. simpl. now rewrite IH1, IH2.
Qed.



Lemma first_select_update_kept c f t r :
  (forall x, c x = true -> c (f x) = true) ->
  first (select_where c t) = Some r ->
  first (select_where c (update_where c f t)) = Some (f r).
Proof.
  intros Hkept. unfold first, select_where, update_where.
  induction t as [|x t IH]; simpl; [discriminate|].
  destruct (c x) eqn:E; simpl.
  - rewrite (Hkept x E). simpl. now intros [= ->].
  - rewrite E. exact IH.
Qed.
End SqlFacts.

Lemma insert_serial_length {V R : Type} (mk : Z -> V -> R) next vs :
  List.length (insert_serial mk next vs) = List.length vs.
Proof.
  revert next. induction vs as [|v vs IH]; intros next; simpl; [reflexivity|].
  now rewrite IH.
Qed.


(** ** Stock never goes below zero and never grows *)

Section Stock.








Lemma Forall_filter_keep {A : Type} (P : A -> Prop) (f : A -> bool) l :
  Forall P l -> Forall P (filter f l).
Proof.
  rewrite !Forall_forall. intros H x Hx. apply filter_In in Hx. now apply H.
Qed.




End Stock.

(** ** Settlement: the sales ledger and the guard *)

Section Settlement.

Lemma createSales_sales invoiceId userId db :
  sales (createSalesFromInvoice invoiceId userId db)
  = (sales db ++ insert_serial sale_row (sales_seq db)
                               (salesData invoiceId userId (items_of invoiceId db)))%list.
Proof.
  unfold createSalesFromInvoice. fold (items_of invoiceId db).
  destruct (0 <? _) eqn:E; [reflexivity|].
  apply Z.ltb_ge in E.
  destruct (salesData invoiceId userId (items_of invoiceId db)); simpl in *; [|lia].
  now rewrite app_nil_r.
Qed.

Lemma createSales_products invoiceId userId db :
  products (createSalesFromInvoice invoiceId userId db) = settled_products invoiceId userId db.
Proof.
  unfold createSalesFromInvoice, settled_products. fold (items_of invoiceId db).
  destruct (0 <? _) eqn:E; [reflexivity|].
  apply Z.ltb_ge in E. unfold salesData in E. rewrite length_map in E.
  destruct (filter _ (items_of invoiceId db)); simpl in *; [reflexivity|lia].
Qed.

Lemma createSales_frame invoiceId userId db :
  let db' := createSalesFromInvoice invoiceId userId db in
  invoices db' = invoices db /\ invoiceItems db' = invoiceItems db
  /\ clients db' = clients db /\ categories db' = categories db.
Proof.
  unfold createSalesFromInvoice. now destruct (0 <? _).
Qed.

(** The settlement helper reads neither the invoice table nor its sequence. *)
Lemma createSales_with_invoices invoiceId userId t db :
  let db' := createSalesFromInvoice invoiceId userId (with_invoices t db) in
  sales db' = sales (createSalesFromInvoice invoiceId userId db)
  /\ products db' = products (createSalesFromInvoice invoiceId userId db)
  /\ invoices db' = t /\ invoiceItems db' = invoiceItems db.
Proof.
  simpl. rewrite !createSales_sales, !createSales_products.
  destruct (createSales_frame invoiceId userId (with_invoices t db)) as (Hi & Hit & _).
  repeat split; assumption.
Qed.

Lemma truthy_has_product items :
  Forall (fun it => it_productId it <> Some 0) items ->
  filter (fun it => truthy (it_productId it)) items = filter has_product items.
Proof.
  induction 1 as [|it items Hnz _ IH]; simpl; [reflexivity|].
  rewrite IH. unfold has_product, truthy.
  destruct (it_productId it) as [n|]; [|reflexivity].
  destruct (Z.eqb_spec n 0) as [->|]; [congruence|reflexivity].
Qed.

Lemma salesData_copies invoiceId userId items next :
  Forall2 (sale_copies invoiceId userId)
          (filter (fun it => truthy (it_productId it)) items)
          (insert_serial sale_row next (salesData invoiceId userId items)).
Proof.
  unfold salesData. revert next.
  induction items as [|it items IH]; intros next; simpl; [constructor|].
  destruct (truthy (it_productId it)) eqn:E; simpl; [|apply IH].
  constructor; [|apply IH].
  unfold sale_copies, productId_of; simpl.
  destruct (it_productId it); [|discriminate]. repeat split.
Qed.

(** What [updateInvoice] does, by the two sides of its guard. *)
Lemma updateInvoice_fires id patch userId db :
  is_paid (pinv_status patch) = true ->
  is_paid (option_map inv_status (getInvoice id userId db)) = false ->
  snd (updateInvoice id patch userId db)
  = createSalesFromInvoice id userId
      (with_invoices (update_where (invoice_key id userId) (set_invoice patch) (invoices db)) db).
Proof.
  intros Hnew Hold. unfold updateInvoice. now rewrite Hnew, Hold.
Qed.

Lemma updateInvoice_quiet id patch userId db :
  is_paid (pinv_status patch) && negb (is_paid (option_map inv_status (getInvoice id userId db)))
  = false ->
  snd (updateInvoice id patch userId db)
  = with_invoices (update_where (invoice_key id userId) (set_invoice patch) (invoices db)) db.
Proof.
  intros H. unfold updateInvoice. now rewrite H.
Qed.

Lemma is_paid_set_status patch inv :
  is_paid (pinv_status patch) = true ->
  is_paid (Some (inv_status (set_invoice patch inv))) = true.
Proof.
  destruct (pinv_status patch) as [s|] eqn:E; [|discriminate].
  simpl. now rewrite E.
Qed.

Lemma invoice_key_kept id userId patch :
  pinv_userId patch = None \/ pinv_userId patch = Some userId ->
  forall x, invoice_key id userId x = true ->
            invoice_key id userId (set_invoice patch x) = true.
Proof.
  intros Hu x Hx. unfold invoice_key in *. simpl.
  destruct Hu as [-> | ->]; simpl; [exact Hx|].
  apply andb_true_iff in Hx as [-> _]. simpl.
  unfold eqS. apply String.eqb_refl.
Qed.

(** C7: when the status of an invoice that is not yet paid is set to
    paid, the sales appended are, in order, exactly one per line item of
    the invoice that references a product, each copying the item's
    product, quantity, unit price and line total; line items without a
    product reference get none.  (Product keys are serial, so never 0.) *)
Theorem settlement_one_sale_per_product_item
        (id : Z) (patch : PartialInvoice) (userId : UserId) (db : Db) (inv : Invoice) :
  getInvoice id userId db = Some inv ->
  is_paid (Some (inv_status inv)) = false ->
  is_paid (pinv_status patch) = true ->
  Forall (fun it => it_productId it <> Some 0) (invoiceItems db) ->
  exists new,
    sales (snd (updateInvoice id patch userId db)) = (sales db ++ new)%list
    /\ Forall2 (sale_copies id userId) (filter has_product (items_of id db)) new
    /\ List.length new = List.length (filter has_product (items_of id db)).
Proof.
  intros Hget Hold Hnew Hkeys.
  rewrite updateInvoice_fires; [|exact Hnew|now rewrite Hget].
  destruct (createSales_with_invoices id userId
              (update_where (invoice_key id userId) (set_invoice patch) (invoices db)) db)
    as (Hs & _).
  rewrite Hs, createSales_sales.
  eexists. split; [reflexivity|].
  assert (Hf : filter (fun it => truthy (it_productId it)) (items_of id db)
               = filter has_product (items_of id db)).
  { apply truthy_has_product. unfold items_of, select_where.
    rewrite Forall_forall in *. intros it Hit. apply filter_In in Hit. now apply Hkeys. }
  rewrite <- Hf. split; [apply salesData_copies|].
  rewrite insert_serial_length. unfold salesData. now rewrite length_map.
Qed.

(** C3, as the code has it: on a status update to paid of an invoice the
    tenant owns, the settlement effects (sales rows and stock decrements)
    are those of one run of the settlement helper whenever the stored
    status was not paid, and none if it was; submitting the same update
    again leaves sales and stock as the first one left them. *)
Theorem settlement_guard
        (id : Z) (patch : PartialInvoice) (userId : UserId) (db : Db) (inv : Invoice) :
  getInvoice id userId db = Some inv ->
  is_paid (pinv_status patch) = true ->
  pinv_userId patch = None \/ pinv_userId patch = Some userId ->
  let db1 := snd (updateInvoice id patch userId db) in
  let db2 := snd (updateInvoice id patch userId db1) in
  (is_paid (Some (inv_status inv)) = false ->
     sales db1 = sales (createSalesFromInvoice id userId db)
     /\ products db1 = products (createSalesFromInvoice id userId db))
  /\ (is_paid (Some (inv_status inv)) = true ->
       sales db1 = sales db /\ products db1 = products db)
  /\ sales db2 = sales db1 /\ products db2 = products db1
  /\ invoiceItems db2 = invoiceItems db.
Proof.
  intros Hget Hnew Hu db1 db2.
  set (t := update_where (invoice_key id userId) (set_invoice patch) (invoices db)).
  assert (Hinv1 : invoices db1 = t /\ invoiceItems db1 = invoiceItems db).
  { subst db1. destruct (is_paid (Some (inv_status inv))) eqn:E.
    - rewrite updateInvoice_quiet; [now split|].
      rewrite Hget; cbn [option_map]. rewrite E. apply andb_false_r.
    - rewrite updateInvoice_fires; [|exact Hnew|now rewrite Hget].
      apply (createSales_with_invoices id userId t db). }
  destruct Hinv1 as [Hinv1 Hitems1].
  assert (Hget1 : getInvoice id userId db1 = Some (set_invoice patch inv)).
  { unfold getInvoice. rewrite Hinv1. subst t.
    apply first_select_update_kept; [now apply invoice_key_kept|exact Hget]. }
  assert (Hquiet : db2 = with_invoices
                           (update_where (invoice_key id userId) (set_invoice patch)
                                         (invoices db1)) db1).
  { subst db2. apply updateInvoice_quiet.
    rewrite Hget1; cbn [option_map].
    rewrite (is_paid_set_status patch inv Hnew). apply andb_false_r. }
  repeat split.
  - subst db1. rewrite updateInvoice_fires; [|exact Hnew|now rewrite Hget].
    apply (createSales_with_invoices id userId t db).
  - subst db1. rewrite updateInvoice_fires; [|exact Hnew|now rewrite Hget].
    apply (createSales_with_invoices id userId t db).
  - subst db1. rewrite updateInvoice_quiet; [reflexivity|].
    rewrite Hget; cbn [option_map]. rewrite H. apply andb_false_r.
  - subst db1. rewrite updateInvoice_quiet; [reflexivity|].
    rewrite Hget; cbn [option_map]. rewrite H. apply andb_false_r.
  - now rewrite Hquiet.
  - now rewrite Hquiet.
  - rewrite Hquiet. simpl. exact Hitems1.
Qed.

End Settlement.

(** ** Deleting an invoice *)

Section Deletion.

(** C9: [deleteInvoice] runs three statements in this order: delete the
    sales of the invoice, delete its line items, delete the invoice row
    of that id and tenant.  The first leaves line items and invoices in
    place, the second leaves invoices in place.  Afterwards no sale and no
    line item references the id, the other sales and line items are kept,
    the invoice is not found by the tenant, and the product table (hence
    every stock) is unchanged. *)
Theorem deleteInvoice_cascade (id : Z) (userId : UserId) (db : Db) :
  let db1 := delete_sales_of id db in
  let db2 := delete_items_of id db1 in
  let db3 := delete_invoice_row id userId db2 in
  deleteInvoice id userId db = db3
  /\ (invoiceItems db1 = invoiceItems db /\ invoices db1 = invoices db)
  /\ (invoices db2 = invoices db /\ sales db2 = sales db1)
  /\ (forall s, In s (sales db3) <-> In s (sales db) /\ sa_invoiceId s <> id)
  /\ (forall it, In it (invoiceItems db3) <-> In it (invoiceItems db) /\ it_invoiceId it <> id)
  /\ (forall i, In i (invoices db3) <->
                In i (invoices db) /\ ~ (inv_id i = id /\ inv_userId i = userId))
  /\ getInvoice id userId db3 = None
  /\ getInvoiceWithItems id userId db3 = None
  /\ Routes.get_invoice userId id db3 = Routes.Status 404 "Invoice not found"
  /\ items_of id db3 = []
  /\ products db3 = products db.
Proof.
  intros db1 db2 db3.
  assert (Hsel : select_where (invoice_key id userId) (invoices db3) = []).
  { subst db3 db2 db1. simpl. apply select_after_delete. }
  assert (Hwith : getInvoiceWithItems id userId db3 = None).
  { unfold getInvoiceWithItems. now rewrite Hsel. }
  repeat apply conj; try reflexivity.
  - intros s. subst db3 db2 db1. simpl. unfold delete_where. rewrite filter_In.
    unfold eqZ. rewrite negb_true_iff, Z.eqb_neq. reflexivity.
  - intros it. subst db3 db2 db1. simpl. unfold delete_where. rewrite filter_In.
    unfold eqZ. rewrite negb_true_iff, Z.eqb_neq. reflexivity.
  - intros i. subst db3 db2 db1. simpl. unfold delete_where. rewrite filter_In.
    unfold invoice_key, eqZ, eqS.
    rewrite negb_true_iff, andb_false_iff, Z.eqb_neq, String.eqb_neq.
    split; intros [Hin Hk]; (split; [exact Hin|]); [tauto|].
    destruct (Z.eq_dec (inv_id i) id) as [E|E]; [right|now left].
    intros E'. now apply Hk.
  - unfold getInvoice. now rewrite Hsel.
  - exact Hwith.
  - unfold Routes.get_invoice. now rewrite Hwith.
  - subst db3 db2 db1. unfold items_of. simpl. apply select_after_delete.
Qed.

End Deletion.

(** ** Statements keyed by tenant *)

Section Isolation.

(** Where a tenant owns no row of that id, its read finds nothing and its
    update and delete leave the table as it is.  This is the filter that
    the first two statements of [deleteInvoice] and the select of
    [createSalesFromInvoice] do not have. *)
Lemma keyed_by_tenant_isolated (id : Z) (userId : UserId) (db : Db)
      (client : PartialClient) (product : PartialProduct) (category : PartialCategory) :
  (select_where (client_key id userId) (clients db) = [] ->
   getClient id userId db = None
   /\ clients (snd (updateClient id client userId db)) = clients db
   /\ clients (deleteClient id userId db) = clients db)
  /\ (select_where (product_key id userId) (products db) = [] ->
      getProduct id userId db = None
      /\ products (snd (updateProduct id product userId db)) = products db
      /\ products (deleteProduct id userId db) = products db)
  /\ (select_where (category_key id userId) (categories db) = [] ->
      getCategory id userId db = None
      /\ categories (snd (updateCategory id category userId db)) = categories db
      /\ categories (deleteCategory id userId db) = categories db).
Proof.
  split; [|split]; intros H.
  - apply (keyed_statements_miss _ (set_client client)) in H. exact H.
  - apply (keyed_statements_miss _ (set_product product)) in H. exact H.
  - apply (keyed_statements_miss _ (set_category category)) in H. exact H.
Qed.

End Isolation.

(** ** Partial updates carry the tenant key *)

Section Reassign.






Lemma updateInvoice_invoices id patch userId db :
  invoices (snd (updateInvoice id patch userId db))
  = update_where (invoice_key id userId) (set_invoice patch) (invoices db)
  /\ fst (updateInvoice id patch userId db)
     = first (update_returning (invoice_key id userId) (set_invoice patch) (invoices db)).
Proof.
  unfold updateInvoice.
  destruct (is_paid (pinv_status patch) && _); simpl; [|now split].
  split; [|reflexivity].
  apply (createSales_with_invoices id userId _ db).
Qed.


End Reassign.

(** ** Validation *)

Section Validation.
Import InvoiceForm Routes Columns Keys.

Lemma createInvoice_persists invoice items db :
  let (newInvoice, db') := createInvoice invoice items db in
  newInvoice = invoice_row (invoices_seq db) invoice
  /\ invoices db' = (invoices db ++ [newInvoice])%list
  /\ invoiceItems db'
     = (invoiceItems db
        ++ insert_serial item_row (invoiceItems_seq db)
             (map (fun item => mkInsertInvoiceItem (invoices_seq db) (in_productId item)
                                 (in_productName item) (in_quantity item)
                                 (in_priceHT item) (in_totalHT item)) items))%list.
Proof.
  unfold createInvoice, insert_invoice.
  destruct items as [|item items]; simpl.
  - repeat split. now rewrite app_nil_r.
  - repeat split.
Qed.




Lemma stored_accepted (column : string -> option string) (text c : string) :
  column text = Some c -> stored column text = c.
Proof. unfold stored. now intros ->. Qed.

Lemma createInvoice_item_rows invoiceId next (items : list ItemInput) :
  Forall2 (fun item row => it_invoiceId row = invoiceId
                           /\ it_productId row = in_productId item
                           /\ it_productName row = in_productName item
                           /\ it_quantity row = in_quantity item
                           /\ it_priceHT row = stored (decimal 10 2) (in_priceHT item)
                           /\ it_totalHT row = stored (decimal 10 2) (in_totalHT item))
          items
          (insert_serial item_row next
             (map (fun item => mkInsertInvoiceItem invoiceId (in_productId item)
                                 (in_productName item) (in_quantity item)
                                 (in_priceHT item) (in_totalHT item)) items)).
Proof.
  revert next. induction items as [|item items IH]; intros next; simpl; constructor.
  - repeat split.
  - apply IH.
Qed.


End Validation.

(** ** The scenario, run *)

Section Runs.
Import Scenario Routes InvoiceForm.

(** C1: tenant A posts the pending invoice (3 x product A) against a
    stock of 10.  The stock is 7 as soon as the invoice is created, and 4
    once the invoice is marked paid: creation already runs the stock
    adjustment, and settlement runs it again. *)
Example creation_already_decrements_stock :
  map pr_stock (products (db_start 10)) = [Some 10]
  /\ map inv_status (invoices (db_created "en_attente" 10)) = ["en_attente"]
  /\ sales (db_created "en_attente" 10) = []
  /\ map pr_stock (products (db_created "en_attente" 10)) = [Some 7]
  /\ map pr_stock (products (db_settled 10)) = [Some 4].
Proof. repeat split. Qed.

(** C2: tenant A's invoice 1 is settled, with two line items and one
    sale.  Tenant B, who cannot read the invoice or its client (404),
    deletes invoice 1: the invoice row stays, but A's sale and A's line
    items are gone.  Tenant B marking invoice 1 paid changes no invoice,
    yet gets a sale of its own copied from A's line item. *)
Example deleteInvoice_crosses_tenants :
  let db := db_settled 10 in
  get_invoice tenantB 1 db = Status 404 "Invoice not found"
  /\ get_client tenantB 1 db = Status 404 "Client not found"
  /\ map inv_userId (invoices db) = [tenantA]
  /\ List.length (invoiceItems db) = 2%nat
  /\ map sa_userId (sales db) = [tenantA]
  /\ (let db' := snd (delete_invoice tenantB 1 db) in
      invoices db' = invoices db /\ invoiceItems db' = [] /\ sales db' = [])
  /\ (let db' := snd (put_invoices tenantB 1 (status_patch "payee") db) in
      invoices db' = invoices db
      /\ getSales tenantB db' = [mkSale 2 1 1 3 "1000.00" "3000.00" tenantB]).
Proof. vm_compute. repeat split. Qed.

(** C8: tenant A posts the same invoice with status [payee] chosen in the
    form.  The invoice is stored as paid and has a line item on product
    A, but no sale; marking it paid afterwards creates none either, the
    guard seeing it already paid. *)
Example invoice_created_paid_has_no_sale :
  let db := db_created "payee" 10 in
  In "payee" INVOICE_STATUS
  /\ createInvoiceFormSchema (form "payee") = true
  /\ map inv_status (invoices db) = ["payee"]
  /\ map it_productId (invoiceItems db) = [Some 1; None]
  /\ sales db = []
  /\ sales (snd (put_invoices tenantA 1 (status_patch "payee") db)) = [].
Proof. split; [simpl; tauto|repeat split]. Qed.

(** C3 fails: the scenario's invoice is marked paid (one sale, stock 4),
    set back to pending (nothing changes downstream) and marked paid again.
    This second update to paid is not the first one from a status that is
    not paid, yet it settles again: a second sale, and stock 1. *)
Lemma settlement_fires_again_after_revert :
  map inv_status (invoices (db_settled 10)) = ["payee"]
  /\ List.length (sales (db_settled 10)) = 1%nat
  /\ map pr_stock (products (db_settled 10)) = [Some 4]
  /\ map inv_status (invoices (db_reverted 10)) = ["en_attente"]
  /\ sales (db_reverted 10) = sales (db_settled 10)
  /\ products (db_reverted 10) = products (db_settled 10)
  /\ map inv_status (invoices (db_resettled 10)) = ["payee"]
  /\ map sa_quantity (sales (db_resettled 10)) = [3; 3]
  /\ map pr_stock (products (db_resettled 10)) = [Some 1].
Proof. vm_compute. repeat split. Qed.

(** C4: the scenario's form (3 x 1000.00 and 1 x 500.00 at 18%) posts 3500.00,
    630.00 and 4130.00.  A form with one line of 0.50 at 3%, which the
    schema accepts, posts a total of 0.50, a tax of 0.01 and a total with
    tax of 0.52.  The product [0.5 * (3 / 100)] is the binary64 number just
    below 0.015, so the tax is rendered 0.01, while [0.5 + 0.5 * (3 / 100)]
    rounds to the number just above 0.515 and is rendered 0.52: the three
    totals are rounded apart and do not add up. *)
Example totals_are_rounded_apart :
  (exists invoice items,
      mutationFn "FAC-2025-001" (form "en_attente") = Some (invoice, items)
      /\ ii_totalHT invoice = "3500.00"
      /\ ii_totalTVA invoice = "630.00"
      /\ ii_totalTTC invoice = "4130.00"
      /\ map in_totalHT items = ["3000.00"; "500.00"])
  /\ createInvoiceFormSchema small_form = true
  /\ In (f_tvaRate small_form) TAX_RATES
  /\ totalTVA small_form = S754_finite false 8646911284551352 (-59)
  /\ totalTTC small_form = S754_finite false 4638707616191611 (-53)
  /\ (exact 8646911284551352 (-59) < 15 # 1000)%Q
  /\ (515 # 1000 < exact 4638707616191611 (-53))%Q
  /\ (exists invoice items,
        mutationFn "FAC-2025-003" small_form = Some (invoice, items)
        /\ ii_totalHT invoice = "0.50"
        /\ ii_totalTVA invoice = "0.01"
        /\ ii_totalTTC invoice = "0.52"
        /\ map in_totalHT items = ["0.50"]).
Proof.
  split; [|split; [|split; [|split; [|split; [|split; [|split]]]]]].
  - do 2 eexists. split; [vm_compute; reflexivity|]. repeat split.
  - reflexivity.
  - simpl. tauto.
  - vm_compute. reflexivity.
  - vm_compute. reflexivity.
  - reflexivity.
  - reflexivity.
  - do 2 eexists. split; [vm_compute; reflexivity|]. repeat split.
Qed.


End Runs.

(** ** The theorems at the scenario *)

Section Instances.
Import Scenario Routes InvoiceForm.

(** Marking the scenario's invoice paid appends one sale, for product A. *)
Lemma settlement_one_sale_per_product_item_witness :
  exists new,
    sales (snd (updateInvoice 1 (status_patch "payee") tenantA (db_created "en_attente" 10)))
    = (sales (db_created "en_attente" 10) ++ new)%list
    /\ Forall2 (sale_copies 1 tenantA)
               (filter has_product (items_of 1 (db_created "en_attente" 10))) new
    /\ List.length new = 1%nat.
Proof.
  eapply (settlement_one_sale_per_product_item 1 (status_patch "payee") tenantA
            (db_created "en_attente" 10)).
  - reflexivity.
  - reflexivity.
  - reflexivity.
  - repeat constructor; simpl; discriminate.
Defined.

(** Marking the scenario's invoice paid twice: the second call changes
    neither sales nor stock. *)
Lemma settlement_guard_witness :
  let db := db_created "en_attente" 10 in
  let db1 := snd (updateInvoice 1 (status_patch "payee") tenantA db) in
  let db2 := snd (updateInvoice 1 (status_patch "payee") tenantA db1) in
  sales db1 = sales (createSalesFromInvoice 1 tenantA db)
  /\ products db1 = products (createSalesFromInvoice 1 tenantA db)
  /\ sales db2 = sales db1 /\ products db2 = products db1.
Proof.
  intros db db1 db2.
  destruct (settlement_guard 1 (status_patch "payee") tenantA db
              (invoice_row 1 (mkInsertInvoice "FAC-2025-001" 1 (Some "en_attente")
                                "3500.00" "18.00" "630.00" "4130.00"
                                (Some 1740700800000) None tenantA)))
    as (Hfire & _ & Hs & Hp & _).
  - reflexivity.
  - reflexivity.
  - left. reflexivity.
  - destruct Hfire as [Hs1 Hp1]; [reflexivity|].
    split; [exact Hs1|split; [exact Hp1|split; [exact Hs|exact Hp]]].
Defined.



End Instances.

(** * Further properties of the storage layer *)

Import Keys.

(** ** The stock loops as one deduction *)

Section Deduction.









End Deduction.

(** ** The clamp *)

Section Clamp.
Import Scenario Routes.





End Clamp.

(** ** Primary keys *)

Section PrimaryKeys.

Lemma insert_serial_keys {V R : Type} (mk : Z -> V -> R) (key : R -> Z) vs :
  (forall n v, key (mk n v) = n) ->
  forall next,
    Forall (fun r => next <= key r < next + Z.of_nat (List.length vs)) (insert_serial mk next vs)
    /\ NoDup (map key (insert_serial mk next vs)).
Proof.
  intros Hkey. induction vs as [|v vs IH]; intros next; simpl insert_serial.
  - split; constructor.
  - destruct (IH (next + 1)) as [Hrange Hnodup].
    change (List.length (v :: vs)) with (S (List.length vs)). rewrite Nat2Z.inj_succ.
    split.
    + constructor; [rewrite Hkey; lia|].
      eapply Forall_impl; [|exact Hrange]. simpl. intros r Hr. lia.
    + simpl. constructor; [|exact Hnodup].
      rewrite Hkey. intros Hin. apply in_map_iff in Hin as (r & Hr & Hin).
      rewrite Forall_forall in Hrange. specialize (Hrange r Hin). lia.
Qed.

Lemma insert_serial_Forall {V R : Type} (mk : Z -> V -> R) (P : R -> Prop) vs :
  (forall n v, In v vs -> P (mk n v)) ->
  forall next, Forall P (insert_serial mk next vs).
Proof.
  induction vs as [|v vs IH]; intros H next; simpl; constructor.
  - apply H. now left.
  - apply IH. intros n v' Hin. apply H. now right.
Qed.

Lemma NoDup_keys_app {R : Type} (key : R -> Z) (next : Z) (old new : list R) :
  Forall (fun r => key r < next) old -> NoDup (map key old) ->
  Forall (fun r => next <= key r) new -> NoDup (map key new) ->
  NoDup (map key (old ++ new)).
Proof.
  intros Hold Hnd Hnew Hnd'. induction old as [|r old IH]; simpl; [exact Hnd'|].
  inversion Hold as [|? ? Hr Hold']; subst. inversion Hnd as [|? ? Hnotin Hnd'']; subst.
  constructor; [|now apply IH].
  rewrite map_app, in_app_iff. intros [Hin|Hin]; [now apply Hnotin|].
  apply in_map_iff in Hin as (r' & Hk & Hin).
  rewrite Forall_forall in Hnew. specialize (Hnew r' Hin). lia.
Qed.

Lemma NoDup_keys_filter {R : Type} (key : R -> Z) (c : R -> bool) (t : list R) :
  NoDup (map key t) -> NoDup (map key (filter c t)).
Proof.
  induction t as [|r t IH]; simpl; [constructor|].
  intros Hnd. inversion Hnd as [|? ? Hnotin Hnd']; subst.
  destruct (c r); simpl; [|now apply IH].
  constructor; [|now apply IH].
  intros Hin. apply Hnotin. apply in_map_iff in Hin as (r' & Hk & Hin).
  apply filter_In in Hin as [Hin _]. apply in_map_iff. now exists r'.
Qed.

Lemma update_where_keys {R : Type} (key : R -> Z) (c : R -> bool) (f : R -> R) (t : list R) :
  (forall r, key (f r) = key r) ->
  map key (update_where c f t) = map key t.
Proof.
  intros Hf. unfold update_where. rewrite map_map. apply map_ext.
  intros r. now destruct (c r).
Qed.

Lemma keys_ok_createSales invoiceId userId db :
  keys_ok db -> keys_ok (createSalesFromInvoice invoiceId userId db).
Proof.
  intros Hok. pose proof Hok as (Hi & Hin & Hit & Hitn & Hs & Hsn).
  unfold createSalesFromInvoice. fold (items_of invoiceId db).
  set (data := salesData invoiceId userId (items_of invoiceId db)).
  destruct (0 <? Z.of_nat (List.length data)) eqn:E; [|exact Hok].
  apply Z.ltb_lt in E.
  assert (Hissued : invoiceId < invoices_seq db).
  { subst data. unfold salesData in E. rewrite length_map in E.
    destruct (filter _ (items_of invoiceId db)) as [|it rest] eqn:Hf; [simpl in E; lia|].
    assert (Hin' : In it (filter (fun item => truthy (it_productId item))
                                 (items_of invoiceId db))) by (rewrite Hf; now left).
    apply filter_In in Hin' as [Hin' _].
    unfold items_of, select_where in Hin'. apply filter_In in Hin' as [Hin' Hid].
    apply Z.eqb_eq in Hid. rewrite Forall_forall in Hit.
    specialize (Hit it Hin'). lia. }
  destruct (insert_serial_keys sale_row sa_id data (fun n v => eq_refl) (sales_seq db))
    as [Hrange Hnodup].
  assert (Hof : Forall (fun s => sa_invoiceId s = invoiceId)
                       (insert_serial sale_row (sales_seq db) data)).
  { apply insert_serial_Forall. intros n v Hv. subst data. unfold salesData in Hv.
    apply in_map_iff in Hv as (item & <- & _). reflexivity. }
  unfold keys_ok. simpl. repeat split; try assumption.
  - apply Forall_app. split.
    + eapply Forall_impl; [|exact Hs]. simpl. intros s Hlt. lia.
    + rewrite Forall_forall in *. intros s Hin'.
      specialize (Hrange s Hin'). specialize (Hof s Hin'). simpl in *. lia.
  - apply (NoDup_keys_app sa_id (sales_seq db)); try assumption.
    + eapply Forall_impl; [|exact Hs]. simpl. intros s Hlt. lia.
    + eapply Forall_impl; [|exact Hrange]. simpl. intros s Hlt. lia.
Qed.

(** X2: the invoice operations keep the primary keys in order: if the
    keys of invoices, line items and sales are pairwise distinct and below
    their sequences, and every line item carries an invoice number already
    issued, the same holds after [createInvoice], [updateInvoice] and
    [deleteInvoice]. *)
Theorem invoice_operations_keep_keys
        (invoice : InsertInvoice) (items : list ItemInput)
        (id : Z) (patch : PartialInvoice) (userId : UserId) (db : Db) :
  keys_ok db ->
  keys_ok (snd (createInvoice invoice items db))
  /\ keys_ok (snd (updateInvoice id patch userId db))
  /\ keys_ok (deleteInvoice id userId db).
Proof.
  intros Hok. pose proof Hok as (Hi & Hin & Hit & Hitn & Hs & Hsn).
  split; [|split].
  - pose proof (createInvoice_persists invoice items db) as Hp.
    assert (Hrest : let db' := snd (createInvoice invoice items db) in
                    sales db' = sales db /\ sales_seq db' = sales_seq db
                    /\ invoices_seq db' = invoices_seq db + 1
                    /\ invoiceItems_seq db'
                       = invoiceItems_seq db + Z.of_nat (List.length items)).
    { unfold createInvoice, insert_invoice.
      destruct items as [|item items]; simpl; repeat split; try lia.
      rewrite length_map. lia. }
    destruct (createInvoice invoice items db) as [newInvoice db'].
    destruct Hp as (Hrow & Einv & Eit). simpl in Hrest.
    destruct Hrest as (Esales & Es3 & Es1 & Es2).
    set (rows := map (fun item => mkInsertInvoiceItem (invoices_seq db) (in_productId item)
                                   (in_productName item) (in_quantity item)
                                   (in_priceHT item) (in_totalHT item)) items) in *.
    destruct (insert_serial_keys item_row it_id rows (fun n v => eq_refl)
                (invoiceItems_seq db)) as [Hrange Hnodup].
    assert (Hlen : List.length rows = List.length items) by apply length_map.
    assert (Hinv : Forall (fun it => it_invoiceId it = invoices_seq db)
                          (insert_serial item_row (invoiceItems_seq db) rows)).
    { apply insert_serial_Forall. intros n v Hv. subst rows.
      apply in_map_iff in Hv as (item & <- & _). reflexivity. }
    simpl. unfold keys_ok. rewrite Einv, Eit, Esales, Es1, Es2, Es3.
    split; [|split; [|split; [|split; [|split]]]].
    + apply Forall_app. split.
      * eapply Forall_impl; [|exact Hi]. simpl. intros i Hlt. lia.
      * constructor; [|constructor]. rewrite Hrow. simpl. lia.
    + apply (NoDup_keys_app inv_id (invoices_seq db)); try assumption.
      * constructor; [|constructor]. rewrite Hrow. simpl. lia.
      * simpl. constructor; [intros []|constructor].
    + apply Forall_app. split.
      * eapply Forall_impl; [|exact Hit]. simpl. intros it Hlt. lia.
      * rewrite Forall_forall in *. intros it Hin'.
        specialize (Hrange it Hin'). specialize (Hinv it Hin'). simpl in *. lia.
    + apply (NoDup_keys_app it_id (invoiceItems_seq db)); try assumption.
      * eapply Forall_impl; [|exact Hit]. simpl. intros it Hlt. lia.
      * eapply Forall_impl; [|exact Hrange]. simpl. intros it Hlt. lia.
    + eapply Forall_impl; [|exact Hs]. simpl. intros s0 Hlt. lia.
    + exact Hsn.
  - assert (Hupd : keys_ok (with_invoices
                              (update_where (invoice_key id userId) (set_invoice patch)
                                            (invoices db)) db)).
    { unfold keys_ok. simpl. split; [|split; [|repeat split; assumption]].
      - unfold update_where. rewrite Forall_forall in *. intros i Hin'.
        apply in_map_iff in Hin' as (i0 & <- & Hin0). specialize (Hi i0 Hin0).
        now destruct (invoice_key id userId i0).
      - rewrite update_where_keys; [assumption|reflexivity]. }
    unfold updateInvoice. destruct (is_paid (pinv_status patch) && _); simpl; [|exact Hupd].
    now apply keys_ok_createSales.
  - unfold deleteInvoice, delete_invoice_row, delete_items_of, delete_sales_of, keys_ok,
      delete_where. simpl.
    split; [|split; [|split; [|split; [|split]]]];
      try (now apply Forall_filter_keep); now apply NoDup_keys_filter.
Qed.

End PrimaryKeys.

(** ** Creating, reading back and deleting an invoice *)

Section RoundTrip.
Import Columns.

Lemma filter_none {R : Type} (c : R -> bool) (t : list R) :
  Forall (fun r => c r = false) t -> filter c t = [].
Proof.
  induction 1 as [|r t Hr _ IH]; simpl; [reflexivity|]. now rewrite Hr.
Qed.

Lemma filter_all {R : Type} (c : R -> bool) (t : list R) :
  Forall (fun r => c r = true) t -> filter c t = t.
Proof.
  induction 1 as [|r t Hr _ IH]; simpl; [reflexivity|]. now rewrite Hr, IH.
Qed.

Lemma createInvoice_frame invoice items db :
  let db' := snd (createInvoice invoice items db) in
  clients db' = clients db /\ categories db' = categories db /\ sales db' = sales db.
Proof.
  unfold createInvoice, insert_invoice. now destruct items.
Qed.

(** The rows [createInvoice] writes for the submitted items. *)
Lemma createInvoice_rows invoice items db :
  exists rows,
    invoiceItems (snd (createInvoice invoice items db)) = (invoiceItems db ++ rows)%list
    /\ Forall (fun row => it_invoiceId row = invoices_seq db) rows
    /\ Forall2 (fun item row => it_productId row = in_productId item
                                /\ it_productName row = in_productName item
                                /\ it_quantity row = in_quantity item
                                /\ it_priceHT row = stored (decimal 10 2) (in_priceHT item)
                                /\ it_totalHT row = stored (decimal 10 2) (in_totalHT item))
               items rows.
Proof.
  pose proof (createInvoice_persists invoice items db) as H.
  destruct (createInvoice invoice items db) as [newInvoice db'].
  destruct H as (_ & _ & Hrows). simpl. eexists. split; [exact Hrows|]. clear Hrows. split.
  - apply insert_serial_Forall. intros n v Hv.
    apply in_map_iff in Hv as (item & <- & _). reflexivity.
  - eapply Forall2_impl; [|apply createInvoice_item_rows].
    intros item row (_ & H). exact H.
Qed.

(** X3: under ordered keys, an invoice just created gets the next key and
    is read back by its tenant: the invoice with number, client, due date
    and owner as submitted and its totals and rate as their columns print
    them; the submitted line items in order, each with product, name and
    quantity as submitted and price and line total as their columns print
    them (rounded to two places, for every text the store accepts); and
    whichever client carries its [clientId] (the join does not look at the
    client's tenant).  No other tenant can read it. *)
Theorem createInvoice_then_read (invoice : InsertInvoice) (items : list ItemInput) (db : Db) :
  keys_ok db ->
  let (newInvoice, db') := createInvoice invoice items db in
  inv_id newInvoice = invoices_seq db
  /\ (inv_number newInvoice = ii_number invoice
      /\ inv_clientId newInvoice = ii_clientId invoice
      /\ inv_dueDate newInvoice = ii_dueDate invoice
      /\ inv_userId newInvoice = ii_userId invoice
      /\ (forall ht, decimal 10 2 (ii_totalHT invoice) = Some ht -> inv_totalHT newInvoice = ht)
      /\ (forall rate, decimal 5 2 (ii_tvaRate invoice) = Some rate
                       -> inv_tvaRate newInvoice = rate)
      /\ (forall tva, decimal 10 2 (ii_totalTVA invoice) = Some tva
                      -> inv_totalTVA newInvoice = tva)
      /\ (forall ttc, decimal 10 2 (ii_totalTTC invoice) = Some ttc
                      -> inv_totalTTC newInvoice = ttc))
  /\ getInvoice (inv_id newInvoice) (ii_userId invoice) db' = Some newInvoice
  /\ (exists rows,
        getInvoiceWithItems (inv_id newInvoice) (ii_userId invoice) db'
        = Some (newInvoice, rows,
                first (select_where (fun c => eqZ (ii_clientId invoice) (cl_id c)) (clients db)))
        /\ Forall2 (fun item row =>
                      it_productId row = in_productId item
                      /\ it_productName row = in_productName item
                      /\ it_quantity row = in_quantity item
                      /\ (forall price, decimal 10 2 (in_priceHT item) = Some price
                                        -> it_priceHT row = price)
                      /\ (forall total, decimal 10 2 (in_totalHT item) = Some total
                                        -> it_totalHT row = total)) items rows)
  /\ forall u', u' <> ii_userId invoice ->
                getInvoiceWithItems (inv_id newInvoice) u' db' = None.
Proof.
  intros (Hi & _ & Hit & _).
  pose proof (createInvoice_persists invoice items db) as Hp.
  pose proof (createInvoice_frame invoice items db) as Hf.
  pose proof (createInvoice_rows invoice items db) as Hr.
  destruct (createInvoice invoice items db) as [newInvoice db'].
  destruct Hp as (Hrow & Einv & _). simpl in Hf, Hr.
  destruct Hf as (Ecl & _). destruct Hr as (rows & Eit & Hof & Hcopy).
  assert (Hid : inv_id newInvoice = invoices_seq db) by now rewrite Hrow.
  assert (Hold : forall u, filter (invoice_key (invoices_seq db) u) (invoices db) = []).
  { intros u. apply filter_none. eapply Forall_impl; [|exact Hi]. simpl.
    intros i Hlt. unfold invoice_key, eqZ.
    destruct (Z.eqb_spec (inv_id i) (invoices_seq db)); [lia|reflexivity]. }
  assert (Hsel : forall u,
             select_where (invoice_key (inv_id newInvoice) u) (invoices db')
             = if eqS (ii_userId invoice) u then [newInvoice] else []).
  { intros u. unfold select_where. rewrite Einv, filter_app, Hid, Hold. simpl.
    unfold invoice_key at 1. rewrite Hid. unfold eqZ. rewrite Z.eqb_refl. simpl.
    rewrite Hrow at 1. simpl. now destruct (eqS (ii_userId invoice) u). }
  assert (Hself : eqS (ii_userId invoice) (ii_userId invoice) = true)
    by apply String.eqb_refl.
  split; [exact Hid|]. split; [|split; [|split]].
  - rewrite Hrow. cbn [invoice_row inv_number inv_clientId inv_dueDate inv_userId
                       inv_totalHT inv_tvaRate inv_totalTVA inv_totalTTC].
    repeat split; intros c Hc; now apply stored_accepted.
  - unfold getInvoice. now rewrite Hsel, Hself.
  - exists rows. split.
    2:{ eapply Forall2_impl; [|exact Hcopy].
        intros item row (Hp1 & Hp2 & Hp3 & Hp4 & Hp5).
        repeat split; try assumption.
        - intros c Hc. rewrite Hp4. now apply stored_accepted.
        - intros c Hc. rewrite Hp5. now apply stored_accepted. }
    unfold getInvoiceWithItems. rewrite Hsel, Hself. simpl flat_map. rewrite app_nil_r.
    assert (Hitems : select_where (fun it => eqZ (it_invoiceId it) (inv_id newInvoice))
                                  (invoiceItems db') = rows).
    { unfold select_where. rewrite Eit, filter_app, Hid.
      rewrite filter_none, filter_all; [reflexivity| |].
      - eapply Forall_impl; [|exact Hof]. simpl. intros row ->. apply Z.eqb_refl.
      - eapply Forall_impl; [|exact Hit]. simpl. intros it [_ Hlt]. unfold eqZ.
        destruct (Z.eqb_spec (it_invoiceId it) (invoices_seq db)); [lia|reflexivity]. }
    rewrite Hitems. unfold left_join_clients. rewrite Ecl.
    assert (Hclient : inv_clientId newInvoice = ii_clientId invoice) by now rewrite Hrow.
    rewrite Hclient.
    destruct (select_where _ (clients db)) as [|c cs]; reflexivity.
  - intros u' Hne. unfold getInvoiceWithItems. rewrite Hsel.
    assert (E : eqS (ii_userId invoice) u' = false).
    { unfold eqS. apply String.eqb_neq. congruence. }
    now rewrite E.
Qed.

(** X4: under ordered keys, deleting an invoice right after creating it
    brings the invoice, line item and sales tables back to what they were;
    the stock deducted at creation stays deducted and the sequences stay
    advanced. *)
Theorem createInvoice_then_delete (invoice : InsertInvoice) (items : list ItemInput) (db : Db) :
  keys_ok db ->
  let (newInvoice, db') := createInvoice invoice items db in
  let db'' := deleteInvoice (inv_id newInvoice) (ii_userId invoice) db' in
  invoices db'' = invoices db
  /\ invoiceItems db'' = invoiceItems db
  /\ sales db'' = sales db
  /\ products db'' = products db'
  /\ invoices_seq db'' = invoices_seq db + 1.
Proof.
  intros (Hi & _ & Hit & _ & Hs & _).
  pose proof (createInvoice_persists invoice items db) as Hp.
  pose proof (createInvoice_frame invoice items db) as Hf.
  pose proof (createInvoice_rows invoice items db) as Hr.
  assert (Hseq : invoices_seq (snd (createInvoice invoice items db)) = invoices_seq db + 1).
  { unfold createInvoice, insert_invoice. now destruct items. }
  destruct (createInvoice invoice items db) as [newInvoice db'].
  destruct Hp as (Hrow & Einv & _). simpl in Hf, Hr, Hseq.
  destruct Hf as (_ & _ & Esales). destruct Hr as (rows & Eit & Hof & _).
  assert (Hid : inv_id newInvoice = invoices_seq db) by now rewrite Hrow.
  unfold deleteInvoice, delete_invoice_row, delete_items_of, delete_sales_of, delete_where.
  simpl. rewrite Hid, Einv, Eit, Esales, !filter_app.
  repeat split; try assumption.
  - rewrite filter_all.
    + simpl. unfold invoice_key, eqZ. rewrite Hrow. simpl.
      rewrite Z.eqb_refl. unfold eqS. rewrite String.eqb_refl. simpl. apply app_nil_r.
    + eapply Forall_impl; [|exact Hi]. simpl. intros i Hlt. unfold invoice_key, eqZ.
      destruct (Z.eqb_spec (inv_id i) (invoices_seq db)); [lia|reflexivity].
  - rewrite filter_all, filter_none; [apply app_nil_r| |].
    + eapply Forall_impl; [|exact Hof]. simpl. intros row ->. unfold eqZ.
      now rewrite Z.eqb_refl.
    + eapply Forall_impl; [|exact Hit]. simpl. intros it [_ Hlt]. unfold eqZ.
      destruct (Z.eqb_spec (it_invoiceId it) (invoices_seq db)); [lia|reflexivity].
  - apply filter_all. eapply Forall_impl; [|exact Hs]. simpl. intros s [_ Hlt]. unfold eqZ.
    destruct (Z.eqb_spec (sa_invoiceId s) (invoices_seq db)); [lia|reflexivity].
Qed.

End RoundTrip.

(** ** What one tenant's invoice operations leave alone *)

Section OtherTenants.

Lemma select_update_other {R : Type} (c k : R -> bool) (f : R -> R) (t : list R) :
  (forall r, k r = true -> c r = false /\ c (f r) = false) ->
  select_where c (update_where k f t) = select_where c t.
Proof.
  intros H. unfold select_where, update_where.
  induction t as [|r t IH]; simpl; [reflexivity|].
  destruct (k r) eqn:E; [|now rewrite IH].
  destruct (H r E) as [-> ->]. exact IH.
Qed.

Lemma decrement_stock_other other userId productId q ps :
  other <> userId ->
  select_where (fun p => eqS (pr_userId p) other) (decrement_stock productId q userId ps)
  = select_where (fun p => eqS (pr_userId p) other) ps.
Proof.
  intros Hne. destruct productId as [pid|]; simpl; [|reflexivity].
  apply select_update_other. intros p Hkey.
  unfold product_key in Hkey. apply andb_true_iff in Hkey as [_ Hu].
  unfold eqS in *. apply String.eqb_eq in Hu. simpl. rewrite Hu.
  split; apply String.eqb_neq; congruence.
Qed.

Lemma decrement_loop_other {I : Type} (pid : I -> option Z) (qty : I -> Z)
      other userId items :
  other <> userId ->
  forall ps,
    select_where (fun p => eqS (pr_userId p) other)
      (fold_left (fun ps item => decrement_stock (pid item) (qty item) userId ps) items ps)
    = select_where (fun p => eqS (pr_userId p) other) ps.
Proof.
  intros Hne. induction items as [|item items IH]; intros ps; simpl; [reflexivity|].
  rewrite IH. now apply decrement_stock_other.
Qed.

Lemma createSales_other other invoiceId userId db :
  other <> userId ->
  getSales other (createSalesFromInvoice invoiceId userId db) = getSales other db
  /\ getProducts other (createSalesFromInvoice invoiceId userId db) = getProducts other db.
Proof.
  intros Hne. unfold getSales, getProducts.
  rewrite createSales_sales, createSales_products. split.
  - unfold select_where. rewrite filter_app.
    rewrite (filter_none _ (insert_serial _ _ _)); [apply app_nil_r|].
    apply insert_serial_Forall. intros n v Hv. unfold salesData in Hv.
    apply in_map_iff in Hv as (item & <- & _). simpl.
    unfold eqS. apply String.eqb_neq. congruence.
  - unfold settled_products. now apply decrement_loop_other.
Qed.

(** X5: what tenant [userId] does with invoices never shows in what
    another tenant lists.  After its [createInvoice] and after its
    [updateInvoice] (with a patch that does not hand the invoice over to
    that tenant) the other tenant's invoices, products, sales and clients
    are listed as before; after its [deleteInvoice] the other tenant's
    invoices, products and clients are. *)
Theorem other_tenant_lists_unchanged
        (invoice : InsertInvoice) (items : list ItemInput)
        (id : Z) (patch : PartialInvoice) (userId other : UserId) (db : Db) :
  other <> userId ->
  ii_userId invoice = userId ->
  pinv_userId patch <> Some other ->
  (let db' := snd (createInvoice invoice items db) in
   getInvoices other db' = getInvoices other db
   /\ getProducts other db' = getProducts other db
   /\ getSales other db' = getSales other db
   /\ getClients other db' = getClients other db)
  /\ (let db' := snd (updateInvoice id patch userId db) in
      getInvoices other db' = getInvoices other db
      /\ getProducts other db' = getProducts other db
      /\ getSales other db' = getSales other db
      /\ getClients other db' = getClients other db)
  /\ (let db' := deleteInvoice id userId db in
      getInvoices other db' = getInvoices other db
      /\ getProducts other db' = getProducts other db
      /\ getClients other db' = getClients other db).
Proof.
  intros Hne Hown Hpatch.
  assert (Hneb : eqS userId other = false).
  { unfold eqS. apply String.eqb_neq. congruence. }
  split; [|split].
  - pose proof (createInvoice_persists invoice items db) as Hp.
    pose proof (createInvoice_frame invoice items db) as Hf.
    assert (Hprod : getProducts other (snd (createInvoice invoice items db))
                    = getProducts other db).
    { unfold createInvoice, insert_invoice, getProducts.
      destruct items as [|item items]; [reflexivity|].
      cbn [Z.ltb Z.of_nat List.length Z.compare snd].
      unfold updateStockAfterInvoiceCreation. cbn [products with_products].
      rewrite Hown. now apply decrement_loop_other. }
    destruct (createInvoice invoice items db) as [newInvoice db'].
    destruct Hp as (Hrow & Einv & _). simpl in Hf, Hprod |- *.
    destruct Hf as (Ecl & _ & Esales).
    repeat split.
    + unfold getInvoices, select_where. rewrite Einv, filter_app. simpl.
      rewrite Hrow. simpl. rewrite Hown, Hneb. apply app_nil_r.
    + exact Hprod.
    + unfold getSales. now rewrite Esales.
    + unfold getClients. now rewrite Ecl.
  - assert (Hinv : getInvoices other
                     (with_invoices (update_where (invoice_key id userId) (set_invoice patch)
                                                  (invoices db)) db)
                   = getInvoices other db).
    { unfold getInvoices. simpl. apply select_update_other.
      intros i Hkey. unfold invoice_key in Hkey. apply andb_true_iff in Hkey as [_ Hu].
      unfold eqS in *. apply String.eqb_eq in Hu. simpl.
      split; [rewrite Hu; apply String.eqb_neq; congruence|].
      destruct (pinv_userId patch) as [u|]; simpl.
      - apply String.eqb_neq. congruence.
      - rewrite Hu. apply String.eqb_neq. congruence. }
    unfold updateInvoice. destruct (is_paid (pinv_status patch) && _); simpl.
    + destruct (createSales_other other id userId
                  (with_invoices (update_where (invoice_key id userId) (set_invoice patch)
                                               (invoices db)) db) Hne) as [Hs Hp].
      destruct (createSales_frame id userId
                  (with_invoices (update_where (invoice_key id userId) (set_invoice patch)
                                               (invoices db)) db)) as (Ei & _ & Ec & _).
      repeat split.
      * unfold getInvoices in *. now rewrite Ei.
      * exact Hp.
      * exact Hs.
      * unfold getClients. now rewrite Ec.
    + repeat split. exact Hinv.
  - unfold deleteInvoice, delete_invoice_row, delete_items_of, delete_sales_of,
      getInvoices, getProducts, getClients. simpl. repeat split.
    unfold select_where, delete_where.
    induction (invoices db) as [|i t IH]; simpl; [reflexivity|].
    destruct (invoice_key id userId i) eqn:Hkey; simpl; [|now rewrite IH].
    unfold invoice_key in Hkey. apply andb_true_iff in Hkey as [_ Hu].
    unfold eqS in *. apply String.eqb_eq in Hu. rewrite Hu.
    apply String.eqb_neq in Hneb. apply String.eqb_neq in Hneb.
    now rewrite Hneb.
Qed.

End OtherTenants.

(** ** Status updates at the edges *)

Section StatusEdges.

Lemma with_invoices_same db : with_invoices (invoices db) db = db.
Proof. now destruct db. Qed.

Lemma first_none_nil {R : Type} (l : list R) : first l = None -> l = [].
Proof. destruct l; [reflexivity|discriminate]. Qed.

(** X6: a status update on an invoice id the tenant has no invoice under
    answers with no row and changes no invoice; if the new status is a paid
    one the settlement helper runs all the same, on whatever line items
    carry that id, and the sales come out for the caller; otherwise the
    store is unchanged. *)
Theorem updateInvoice_without_invoice (id : Z) (patch : PartialInvoice)
        (userId : UserId) (db : Db) :
  getInvoice id userId db = None ->
  fst (updateInvoice id patch userId db) = None
  /\ snd (updateInvoice id patch userId db)
     = (if is_paid (pinv_status patch) then createSalesFromInvoice id userId db else db)
  /\ invoices (snd (updateInvoice id patch userId db)) = invoices db
  /\ (is_paid (pinv_status patch) = true ->
      exists new,
        sales (snd (updateInvoice id patch userId db)) = (sales db ++ new)%list
        /\ Forall2 (fun it s => sale_copies id userId it s)
                   (filter (fun it => truthy (it_productId it)) (items_of id db)) new).
Proof.
  intros Hnone. unfold getInvoice in Hnone. apply first_none_nil in Hnone.
  destruct (keyed_statements_miss (invoice_key id userId) (set_invoice patch)
              (invoices db) Hnone) as (_ & Hupd & _).
  assert (Hsnd : snd (updateInvoice id patch userId db)
                 = if is_paid (pinv_status patch)
                   then createSalesFromInvoice id userId db else db).
  { unfold updateInvoice, getInvoice. rewrite Hnone, Hupd, with_invoices_same. simpl.
    rewrite andb_true_r. now destruct (is_paid (pinv_status patch)). }
  split; [|split; [exact Hsnd|split]].
  - unfold updateInvoice, update_returning. unfold select_where in Hnone.
    rewrite Hnone. now destruct (_ && _).
  - rewrite Hsnd. destruct (is_paid (pinv_status patch)); [|reflexivity].
    apply (createSales_frame id userId db).
  - intros Hpaid. rewrite Hsnd, Hpaid, createSales_sales.
    eexists. split; [reflexivity|]. apply salesData_copies.
Qed.

Lemma createSales_same_ledger invoiceId userId a b :
  same_ledger a b ->
  same_ledger (createSalesFromInvoice invoiceId userId a)
              (createSalesFromInvoice invoiceId userId b).
Proof.
  intros (Hit & Hp & Hs & Hseq).
  unfold createSalesFromInvoice. rewrite Hit.
  destruct (0 <? _); unfold same_ledger; simpl; rewrite ?Hp, ?Hs, ?Hseq; repeat split;
    assumption.
Qed.

Lemma updateInvoice_ledger id patch userId db :
  same_ledger (snd (updateInvoice id patch userId db))
              (if is_paid (pinv_status patch)
                  && negb (is_paid (option_map inv_status (getInvoice id userId db)))
               then createSalesFromInvoice id userId db else db).
Proof.
  unfold updateInvoice.
  destruct (is_paid (pinv_status patch) && _); simpl.
  - apply createSales_same_ledger. repeat split.
  - repeat split.
Qed.

Lemma updateInvoice_getInvoice id patch userId db inv :
  pinv_userId patch = None \/ pinv_userId patch = Some userId ->
  getInvoice id userId db = Some inv ->
  getInvoice id userId (snd (updateInvoice id patch userId db)) = Some (set_invoice patch inv).
Proof.
  intros Hu Hget. unfold getInvoice.
  destruct (updateInvoice_invoices id patch userId db) as [-> _].
  apply first_select_update_kept; [now apply invoice_key_kept|exact Hget].
Qed.

(** X7: an invoice of the tenant that is not paid is marked paid, set to a
    status that is not a paid one, and marked paid again, by patches that
    keep the tenant key.  The step back changes neither sales nor stock;
    after the third update sales and stock are those of two runs of the
    settlement helper, one after the other: every sale twice, every
    quantity deducted twice. *)
Theorem pay_revert_pay_settles_twice
        (id : Z) (pay back : PartialInvoice) (userId : UserId) (db : Db) (inv : Invoice) :
  getInvoice id userId db = Some inv ->
  is_paid (Some (inv_status inv)) = false ->
  is_paid (pinv_status pay) = true ->
  (exists s, pinv_status back = Some s /\ is_paid (Some s) = false) ->
  pinv_userId pay = None \/ pinv_userId pay = Some userId ->
  pinv_userId back = None \/ pinv_userId back = Some userId ->
  let db1 := snd (updateInvoice id pay userId db) in
  let db2 := snd (updateInvoice id back userId db1) in
  let db3 := snd (updateInvoice id pay userId db2) in
  same_ledger db1 (createSalesFromInvoice id userId db)
  /\ same_ledger db2 db1
  /\ same_ledger db3 (createSalesFromInvoice id userId (createSalesFromInvoice id userId db)).
Proof.
  intros Hget Hold Hpay (s & Hback & Hs) Hupay Huback db1 db2 db3.
  assert (Hback' : is_paid (pinv_status back) = false) by now rewrite Hback.
  assert (H1 : same_ledger db1 (createSalesFromInvoice id userId db)).
  { subst db1. pose proof (updateInvoice_ledger id pay userId db) as H.
    rewrite Hget in H. cbn [option_map] in H. now rewrite Hpay, Hold in H. }
  assert (H2 : same_ledger db2 db1).
  { subst db2. pose proof (updateInvoice_ledger id back userId db1) as H.
    now rewrite Hback' in H. }
  assert (Hget2 : getInvoice id userId db2 = Some (set_invoice back (set_invoice pay inv))).
  { subst db2 db1. now repeat apply updateInvoice_getInvoice. }
  assert (H3 : same_ledger db3 (createSalesFromInvoice id userId db2)).
  { subst db3. pose proof (updateInvoice_ledger id pay userId db2) as H.
    rewrite Hget2 in H. cbn [option_map] in H.
    assert (E : is_paid (Some (inv_status (set_invoice back (set_invoice pay inv)))) = false).
    { simpl. rewrite Hback. exact Hs. }
    now rewrite Hpay, E in H. }
  split; [exact H1|split; [exact H2|]].
  assert (Htrans : forall a b c, same_ledger a b -> same_ledger b c -> same_ledger a c).
  { unfold same_ledger. intros a b c (A1 & A2 & A3 & A4) (B1 & B2 & B3 & B4).
    repeat split; congruence. }
  eapply Htrans; [exact H3|]. apply createSales_same_ledger.
  eapply Htrans; eassumption.
Qed.

End StatusEdges.

(** ** Creating clients, products and categories *)

Section CatalogCreation.
Import Routes Catalog.

Lemma select_fresh_last {R : Type} (key : R -> Z) (owner : R -> UserId)
      (next : Z) (userId : UserId) (t : list R) (r : R) :
  Forall (fun x => key x < next) t -> key r = next -> owner r = userId ->
  first (select_where (fun x => eqZ (key x) next && eqS (owner x) userId) (t ++ [r])) = Some r.
Proof.
  intros Hlt Hk Ho. unfold select_where. rewrite filter_app.
  rewrite (filter_none _ t).
  - simpl. unfold eqZ, eqS. now rewrite Hk, Ho, Z.eqb_refl, String.eqb_refl.
  - eapply Forall_impl; [|exact Hlt]. intros x Hx. simpl in Hx.
    unfold eqZ. apply andb_false_iff. left. apply Z.eqb_neq. lia.
Qed.

Lemma select_other_last {R : Type} (owner : R -> UserId) (userId other : UserId)
      (t : list R) (r : R) :
  other <> userId -> owner r = userId ->
  select_where (fun x => eqS (owner x) other) (t ++ [r])
  = select_where (fun x => eqS (owner x) other) t.
Proof.
  intros Hne Ho. unfold select_where. rewrite filter_app. simpl.
  unfold eqS. rewrite Ho.
  destruct (String.eqb_spec userId other) as [E|_]; [now elim Hne|].
  apply app_nil_r.
Qed.

Lemma Forall_keys_app {R : Type} (key : R -> Z) (next : Z) (t : list R) (r : R) :
  Forall (fun x => key x < next) t -> key r = next ->
  Forall (fun x => key x < next + 1) (t ++ [r]).
Proof.
  intros Hlt Hk. apply Forall_app. split.
  - eapply Forall_impl; [|exact Hlt]. intros x Hx. simpl in Hx. lia.
  - constructor; [lia|constructor].
Qed.

(** X8: the three creation routes.  A body the derived schema refuses is
    answered 400 and stores nothing.  Otherwise the row is stored under
    the next key of its table and under the session's tenant, whatever
    [userId] the body names; the tenant reads it back by that key, no other
    tenant's list changes, and the keys stay below the sequences.  A
    product sent without [stock] is stored with stock 0, one sent with a
    null stock keeps the null.  (A row the store itself would refuse, for
    a foreign key without target or a malformed decimal, is outside the
    model.) *)
Theorem post_catalog_stores_under_session
        (userId : UserId) (client : ClientBody) (product : ProductBody)
        (category : CategoryBody) (st : Store) :
  catalog_keys_ok st ->
  (match post_clients userId client st with
   | (Json c, st') =>
       insertClientSchema_parse client userId <> None
       /\ cl_id c = clients_seq st /\ cl_userId c = userId
       /\ getClient (cl_id c) userId (st_db st') = Some c
       /\ (forall other, other <> userId ->
           getClients other (st_db st') = getClients other (st_db st))
       /\ catalog_keys_ok st'
   | (Status code _, st') =>
       insertClientSchema_parse client userId = None /\ code = 400 /\ st' = st
   end)
  /\ (match post_products userId product st with
      | (Json p, st') =>
          insertProductSchema_parse product userId <> None
          /\ pr_id p = products_seq st /\ pr_userId p = userId
          /\ pr_stock p = match pb_stock product with Some s => s | None => Some 0 end
          /\ getProduct (pr_id p) userId (st_db st') = Some p
          /\ (forall other, other <> userId ->
              getProducts other (st_db st') = getProducts other (st_db st))
          /\ catalog_keys_ok st'
      | (Status code _, st') =>
          insertProductSchema_parse product userId = None /\ code = 400 /\ st' = st
      end)
  /\ (match post_categories userId category st with
      | (Json c, st') =>
          insertCategorySchema_parse category userId <> None
          /\ cat_id c = categories_seq st /\ cat_userId c = userId
          /\ getCategory (cat_id c) userId (st_db st') = Some c
          /\ (forall other, other <> userId ->
              getCategories other (st_db st') = getCategories other (st_db st))
          /\ catalog_keys_ok st'
      | (Status code _, st') =>
          insertCategorySchema_parse category userId = None /\ code = 400 /\ st' = st
      end).
Proof.
  intros (Hc & Hp & Hcat). split; [|split].
  - unfold post_clients, insertClientSchema_parse.
    destruct (_ && _); [|now repeat split].
    cbn [createClient client_row ic_name ic_email ic_phone ic_address ic_company ic_userId
         st_db cl_id cl_userId].
    split; [discriminate|]. split; [reflexivity|]. split; [reflexivity|].
    split; [|split].
    + unfold getClient, client_key. destruct st as [db ? ? ?]. destruct db. simpl in *.
      now apply (select_fresh_last cl_id cl_userId).
    + intros other Hne. unfold getClients. destruct st as [db ? ? ?]. destruct db. simpl.
      now apply (select_other_last cl_userId userId).
    + destruct st as [db ? ? ?]. destruct db. unfold catalog_keys_ok in *. simpl in *.
      split; [|split; assumption]. now apply Forall_keys_app.
  - unfold post_products, insertProductSchema_parse.
    destruct (_ && _); [|now repeat split].
    cbn [createProduct product_row ip_name ip_description ip_priceHT ip_stock ip_categoryId
         ip_userId st_db pr_id pr_userId pr_stock].
    split; [discriminate|]. split; [reflexivity|]. split; [reflexivity|].
    split; [reflexivity|]. split; [|split].
    + unfold getProduct, product_key. destruct st as [db ? ? ?]. destruct db. simpl in *.
      now apply (select_fresh_last pr_id pr_userId).
    + intros other Hne. unfold getProducts. destruct st as [db ? ? ?]. destruct db. simpl.
      now apply (select_other_last pr_userId userId).
    + destruct st as [db ? ? ?]. destruct db. unfold catalog_keys_ok in *. simpl in *.
      split; [assumption|split; [|assumption]]. now apply Forall_keys_app.
  - unfold post_categories, insertCategorySchema_parse.
    destruct (varchar _ _); [|now repeat split].
    cbn [createCategory category_row icat_name icat_description icat_userId
         st_db cat_id cat_userId].
    split; [discriminate|]. split; [reflexivity|]. split; [reflexivity|].
    split; [|split].
    + unfold getCategory, category_key. destruct st as [db ? ? ?]. destruct db. simpl in *.
      now apply (select_fresh_last cat_id cat_userId).
    + intros other Hne. unfold getCategories. destruct st as [db ? ? ?]. destruct db. simpl.
      now apply (select_other_last cat_userId userId).
    + destruct st as [db ? ? ?]. destruct db. unfold catalog_keys_ok in *. simpl in *.
      split; [assumption|split; [assumption|]]. now apply Forall_keys_app.
Qed.

End CatalogCreation.

(** ** The invoice page: preview, numbering and submission *)

Section InvoicePageFacts.
Import Routes InvoiceForm InvoicePage.

Lemma or_default_min1 (s fallback : string) :
  string_min1 s = true -> or_default s fallback = s.
Proof. destruct s; [discriminate|reflexivity]. Qed.

Lemma fold_left_ext_Forall {A B : Type} (f g : A -> B -> A) (P : B -> Prop) (l : list B) :
  (forall a b, P b -> f a b = g a b) -> Forall P l ->
  forall a, fold_left f l a = fold_left g l a.
Proof.
  intros Hfg. induction 1 as [|b l Hb _ IH]; intros a; simpl; [reflexivity|].
  now rewrite (Hfg a b Hb), IH.
Qed.

(** X9: on a form the schema accepts, the three totals shown under the
    form while it is filled in are the very numbers the submission
    computes before rounding: the fallbacks of the preview (an empty price
    read as 0, an empty rate as 18.00) never apply to accepted data. *)
Theorem preview_totals_are_submitted_totals (data : CreateInvoiceForm) :
  createInvoiceFormSchema data = true ->
  subtotal (f_items data) = totalHT data
  /\ tax (f_items data) (f_tvaRate data) = totalTVA data
  /\ total (f_items data) (f_tvaRate data) = totalTTC data.
Proof.
  intros Hok. unfold createInvoiceFormSchema in Hok.
  apply andb_true_iff in Hok as [Hok _].
  apply andb_true_iff in Hok as [Hok Hitems].
  apply andb_true_iff in Hok as [_ Hrate1].
  assert (Hsub : subtotal (f_items data) = totalHT data).
  { unfold subtotal, totalHT.
    apply (fold_left_ext_Forall _ _ (fun item => item_schema item = true)).
    - intros a b Hb. unfold line_total. unfold item_schema in Hb.
      apply andb_true_iff in Hb as [_ Hp]. now rewrite or_default_min1.
    - apply Forall_forall. now apply forallb_forall. }
  assert (Hrate : preview_tvaRateNum (f_tvaRate data) = tvaRateNum data).
  { unfold preview_tvaRateNum, tvaRateNum. now rewrite or_default_min1. }
  unfold total, tax, totalTTC, totalTVA. now rewrite Hsub, Hrate.
Qed.

Lemma append_cancel_l (a b c : string) : (a ++ b = a ++ c)%string -> b = c.
Proof.
  induction a as [|x a IH]; simpl; [trivial|]. intros H. injection H. exact IH.
Qed.

Lemma decode_string_of_nonneg (n : Z) :
  option_map N.of_uint (DecimalString.NilEmpty.uint_of_string (string_of_nonneg n))
  = Some (Z.to_N n).
Proof.
  unfold string_of_nonneg.
  assert (Hnil : N.to_uint (Z.to_N n) <> Decimal.Nil).
  { destruct (Z.to_N n) as [|p]; [discriminate|]. simpl.
    apply DecimalPos.Unsigned.to_uint_nonnil. }
  replace (DecimalString.NilZero.string_of_uint (N.to_uint (Z.to_N n)))
    with (DecimalString.NilEmpty.string_of_uint (N.to_uint (Z.to_N n)))
    by (destruct (N.to_uint (Z.to_N n)); [now elim Hnil|reflexivity..]).
  rewrite DecimalString.NilEmpty.usu. simpl.
  now rewrite DecimalN.Unsigned.of_to.
Qed.

Lemma decode_zero (s : string) :
  option_map N.of_uint (DecimalString.NilEmpty.uint_of_string (String "0" s))
  = option_map N.of_uint (DecimalString.NilEmpty.uint_of_string s).
Proof.
  simpl. now destruct (DecimalString.NilEmpty.uint_of_string s).
Qed.

Lemma decode_padStart3 (s : string) :
  option_map N.of_uint (DecimalString.NilEmpty.uint_of_string (padStart3 s))
  = option_map N.of_uint (DecimalString.NilEmpty.uint_of_string s).
Proof.
  unfold padStart3.
  destruct (String.length s) as [|[|[|?]]]; cbn [append]; now rewrite ?decode_zero.
Qed.

(** X10: the invoice number is a function of the year and of how many
    invoices the page has loaded, and of nothing else: two lists get the
    same number exactly when they are equally long.  So once an invoice
    other than the last has been deleted, the next number is one already
    issued. *)
Theorem generateInvoiceNumber_counts_rows (year : N) (l1 l2 : list Invoice) :
  generateInvoiceNumber year l1 = generateInvoiceNumber year l2
  <-> List.length l1 = List.length l2.
Proof.
  unfold generateInvoiceNumber. split.
  - intros H.
    apply append_cancel_l in H. apply append_cancel_l in H. apply append_cancel_l in H.
    apply (f_equal (fun s => option_map N.of_uint (DecimalString.NilEmpty.uint_of_string s)))
      in H.
    rewrite !decode_padStart3, !decode_string_of_nonneg in H.
    injection H as H. apply Z2N.inj in H; lia.
  - now intros ->.
Qed.

(** X11: a form with no due date, an empty one, or one that is not a date
    never creates an invoice.  The page puts [null] in the body for it, which
    the server's schema refuses, since the key is optional, not nullable:
    whatever the form holds otherwise, the store is unchanged, and a form
    that was sent is answered 400. *)
Theorem no_due_date_no_invoice (date_toJSON : string -> option string)
        (Date_parse : string -> option Timestamp) (userId : UserId)
        (invoiceNumber : string) (data : CreateInvoiceForm) (db : Db) :
  match f_dueDate data with
  | None => True
  | Some d => d = "" \/ date_toJSON d = None
  end ->
  snd (submit date_toJSON Date_parse userId invoiceNumber data db) = db
  /\ (forall payload, handleSubmit invoiceNumber data = Sent (Some payload) ->
      fst (submit date_toJSON Date_parse userId invoiceNumber data db)
      = Answered (Status 400 "Failed to create invoice")).
Proof.
  intros Hdate.
  assert (Hwire : forall invoice items,
             mutationFn invoiceNumber data = Some (invoice, items) ->
             from_wire (to_wire date_toJSON invoice) items = None).
  { intros invoice items Hm. unfold mutationFn in Hm.
    destruct (toFixed (totalHT data)); [|discriminate].
    destruct (toFixed (totalTVA data)); [|discriminate].
    destruct (toFixed (totalTTC data)); [|discriminate].
    destruct (items_payload (f_items data)); [|discriminate].
    injection Hm as <- <-. unfold from_wire, to_wire. cbn [w_dueDate ii_dueDate].
    destruct (f_dueDate data) as [d|]; [|reflexivity].
    destruct Hdate as [-> | Hd]; [reflexivity|].
    destruct d as [|c d]; [reflexivity|]. cbn [dueDate_or_null]. now rewrite Hd. }
  unfold submit, handleSubmit.
  destruct (createInvoiceFormSchema data); [|split; [reflexivity|discriminate]].
  destruct (mutationFn invoiceNumber data) as [[invoice items]|] eqn:Hm;
    [|split; [reflexivity|discriminate]].
  rewrite (Hwire invoice items eq_refl). split; [reflexivity|]. intros _ _. reflexivity.
Qed.

End InvoicePageFacts.

(** ** The dashboard queries *)

Section DashboardFacts.
Import Dashboard.

Lemma firstn_all_short {R : Type} (n : nat) (l : list R) :
  (List.length l <= n)%nat -> firstn n l = l.
Proof. apply firstn_all2. Qed.

Lemma In_firstn {R : Type} (n : nat) (l : list R) (x : R) :
  In x (firstn n l) -> In x l.
Proof.
  revert l. induction n as [|n IH]; intros [|y l]; simpl; try tauto.
  intros [->|H]; [now left|right; now apply IH].
Qed.

(** X12: the stock alert of the dashboard.  It lists at most ten
    products, each one of the tenant and each with a stock of exactly 0: a
    product with one to nine units left, or with no stock recorded, is
    never listed, whatever the comment over the query says.  When the
    tenant has at most ten products at 0, all of them are listed. *)
Theorem lowStockProducts_lists_stock_zero (userId : UserId) (db : Db) :
  (List.length (lowStockProducts userId db) <= 10)%nat
  /\ (forall p, In p (lowStockProducts userId db) ->
      In p (products db) /\ pr_userId p = userId /\ pr_stock p = Some 0)
  /\ ((List.length (filter (fun p => stock_is_zero p) (getProducts userId db)) <= 10)%nat ->
      forall p, In p (products db) -> pr_userId p = userId -> pr_stock p = Some 0 ->
                In p (lowStockProducts userId db)).
Proof.
  unfold lowStockProducts, select_where. split; [|split].
  - apply firstn_le_length.
  - intros p Hp. apply In_firstn, filter_In in Hp as [Hin Hc].
    apply andb_true_iff in Hc as [Hu Hs]. unfold eqS in Hu. apply String.eqb_eq in Hu.
    unfold stock_is_zero in Hs. destruct (pr_stock p) as [s|]; [|discriminate].
    apply Z.eqb_eq in Hs. subst s. now repeat split.
  - unfold getProducts, select_where.
    assert (E : forall l : list Product,
               filter (fun p => stock_is_zero p) (filter (fun p => eqS (pr_userId p) userId) l)
               = filter (fun p => eqS (pr_userId p) userId && stock_is_zero p) l).
    { induction l as [|x l IH]; simpl; [reflexivity|].
      destruct (eqS (pr_userId x) userId); simpl; [|exact IH].
      destruct (stock_is_zero x); simpl; now rewrite IH. }
    rewrite E. intros Hlen p Hin Hu Hs. rewrite firstn_all_short by exact Hlen.
    apply filter_In. split; [exact Hin|].
    unfold eqS, stock_is_zero. rewrite Hu, Hs, String.eqb_refl. reflexivity.
Qed.

Lemma NoDup_key_unique {R : Type} (key : R -> Z) (t : list R) (a b : R) :
  NoDup (map key t) -> In a t -> In b t -> key a = key b -> a = b.
Proof.
  induction t as [|x t IH]; simpl; [tauto|].
  intros Hnd Ha Hb Hk. inversion Hnd as [|? ? Hnot Hnd']; subst.
  destruct Ha as [->|Ha], Hb as [->|Hb]; try reflexivity.
  - elim Hnot. rewrite Hk. now apply in_map.
  - elim Hnot. rewrite <- Hk. now apply in_map.
  - now apply IH.
Qed.

Lemma first_select_In {R : Type} (c : R -> bool) (t : list R) (r : R) :
  first (select_where c t) = Some r -> In r t /\ c r = true.
Proof.
  unfold first, select_where. intros H.
  apply filter_In. destruct (filter c t) as [|x l]; [discriminate|].
  injection H as ->. now left.
Qed.

Lemma select_update_blind {R : Type} (c k : R -> bool) (f : R -> R) (t : list R) :
  Forall (fun r => k r = true -> c r = false /\ c (f r) = false) t ->
  select_where c (update_where k f t) = select_where c t.
Proof.
  unfold select_where, update_where.
  induction 1 as [|r t Hr _ IH]; simpl; [reflexivity|].
  destruct (k r) eqn:Hk.
  - destruct (Hr eq_refl) as [-> ->]. exact IH.
  - destruct (c r); now rewrite IH.
Qed.

(** X13: revenue and settlement disagree on what paid means.  The status
    update settles on ["payee"] and on the legacy ["paid"]; the revenue of
    the dashboard sums the invoices whose status is ["payee"] only.  So
    when an unpaid invoice of the tenant is set to ["paid"], the settlement
    runs (sales are recorded and stock is deducted as by the settlement
    helper) and the invoice reads back as ["paid"], but the rows the
    revenue sums, and so the revenue, are what they were. *)
Theorem legacy_paid_settles_without_revenue
        (hundredths : Decimal -> Z) (id : Z) (patch : PartialInvoice)
        (userId : UserId) (db : Db) (inv : Invoice) :
  NoDup (map inv_id (invoices db)) ->
  getInvoice id userId db = Some inv ->
  is_paid (Some (inv_status inv)) = false ->
  pinv_status patch = Some "paid" ->
  pinv_userId patch = None \/ pinv_userId patch = Some userId ->
  let db' := snd (updateInvoice id patch userId db) in
  same_ledger db' (createSalesFromInvoice id userId db)
  /\ option_map inv_status (getInvoice id userId db') = Some "paid"
  /\ revenue_rows userId db' = revenue_rows userId db
  /\ revenue_sum hundredths userId db' = revenue_sum hundredths userId db
  /\ revenue hundredths userId db' = revenue hundredths userId db.
Proof.
  intros Hnd Hget Hold Hpaid Hu db'.
  assert (Hrows : revenue_rows userId db' = revenue_rows userId db).
  { unfold revenue_rows. subst db'.
    destruct (updateInvoice_invoices id patch userId db) as [-> _].
    apply select_update_blind. apply Forall_forall. intros r Hin Hk.
    apply first_select_In in Hget as [Hin' Hk'].
    assert (r = inv) as ->.
    { apply (NoDup_key_unique inv_id (invoices db)); try assumption.
      unfold invoice_key, eqZ in Hk, Hk'.
      apply andb_true_iff in Hk as [Hk _]. apply andb_true_iff in Hk' as [Hk' _].
      apply Z.eqb_eq in Hk, Hk'. congruence. }
    split.
    - simpl in Hold. apply orb_false_iff in Hold as [-> _]. apply andb_false_r.
    - simpl. rewrite Hpaid. simpl. apply andb_false_r. }
  split; [|split; [|split; [exact Hrows|split]]].
  - subst db'. pose proof (updateInvoice_ledger id patch userId db) as H.
    rewrite Hget in H. cbn [option_map] in H. rewrite Hpaid, Hold in H. exact H.
  - subst db'. rewrite (updateInvoice_getInvoice id patch userId db inv Hu Hget).
    simpl. now rewrite Hpaid.
  - unfold revenue_sum. now rewrite Hrows.
  - unfold revenue, revenue_sum. now rewrite Hrows.
Qed.

End DashboardFacts.

(** ** The further theorems at the scenario *)

Section FurtherInstances.
Import Scenario Routes InvoiceForm Catalog Dashboard InvoicePage.


(** The keys of the scenario's store are in order, and still are once the
    invoice is created. *)
Lemma invoice_operations_keep_keys_witness :
  let invoice := mkInsertInvoice "FAC-2025-001" 1 (Some "en_attente") "3500.00" "18.00"
                                 "630.00" "4130.00" (Some 1740700800000) None tenantA in
  keys_ok (db_start 10)
  /\ keys_ok (snd (createInvoice invoice items (db_start 10))).
Proof.
  intros invoice.
  assert (Hk : keys_ok (db_start 10)) by (unfold keys_ok; simpl; repeat constructor).
  split; [exact Hk|].
  apply (invoice_operations_keep_keys invoice items 1 (status_patch "payee") tenantA
           (db_start 10) Hk).
Defined.

(** An invoice of one line priced [5] with line total [15.005] at rate
    [18]: it gets key 1, and tenant A reads it back at [18.00] with the
    line at [5.00] and [15.01]; tenant B reads nothing. *)
Lemma createInvoice_then_read_witness :
  let invoice := mkInsertInvoice "FAC-2025-001" 1 (Some "en_attente") "15.005" "18"
                                 "2.7009" "17.7059" (Some 1740700800000) None tenantA in
  let lines := [mkItemInput (Some 1) "Product A" 3 "5" "15.005"] in
  let (newInvoice, db') := createInvoice invoice lines (db_start 10) in
  inv_id newInvoice = 1
  /\ inv_tvaRate newInvoice = "18.00"
  /\ getInvoice 1 tenantA db' = Some newInvoice
  /\ (exists rows,
        getInvoiceWithItems 1 tenantA db' = Some (newInvoice, rows, Some acme)
        /\ map it_priceHT rows = ["5.00"] /\ map it_totalHT rows = ["15.01"])
  /\ getInvoiceWithItems 1 tenantB db' = None.
Proof.
  intros invoice lines.
  assert (Hk : keys_ok (db_start 10)) by (unfold keys_ok; simpl; repeat constructor).
  generalize (createInvoice_then_read invoice lines (db_start 10) Hk).
  destruct (createInvoice invoice lines (db_start 10)) as [newInvoice db'].
  intros (Hid & (_ & _ & _ & _ & _ & Hrate & _) & Hget & (rows & Hread & Hcopy) & Hother).
  simpl in Hid. rewrite Hid in *.
  split; [reflexivity|]. split; [apply Hrate; vm_compute; reflexivity|].
  split; [exact Hget|]. split.
  - exists rows. split; [exact Hread|].
    inversion Hcopy as [|item row items rows' (_ & _ & _ & Hprice & Htotal) Hrest]; subst.
    inversion Hrest; subst. simpl.
    rewrite (Hprice "5.00"), (Htotal "15.01"); [split; reflexivity| |];
      vm_compute; reflexivity.
  - apply Hother. discriminate.
Defined.

(** Created and deleted at once: no invoice, no line item, the next key
    is 2. *)
Lemma createInvoice_then_delete_witness :
  let invoice := mkInsertInvoice "FAC-2025-001" 1 (Some "en_attente") "3500.00" "18.00"
                                 "630.00" "4130.00" (Some 1740700800000) None tenantA in
  let (newInvoice, db') := createInvoice invoice items (db_start 10) in
  let db'' := deleteInvoice (inv_id newInvoice) tenantA db' in
  invoices db'' = [] /\ invoiceItems db'' = [] /\ invoices_seq db'' = 2.
Proof.
  intros invoice.
  assert (Hk : keys_ok (db_start 10)) by (unfold keys_ok; simpl; repeat constructor).
  generalize (createInvoice_then_delete invoice items (db_start 10) Hk).
  destruct (createInvoice invoice items (db_start 10)) as [newInvoice db'].
  intros (Hi & Hit & _ & _ & Hseq). repeat split; assumption.
Defined.

(** Tenant A creates an invoice and marks invoice 1 paid; tenant B's
    products and sales are listed as before. *)
Lemma other_tenant_lists_unchanged_witness :
  let invoice := mkInsertInvoice "FAC-2025-001" 1 (Some "en_attente") "3500.00" "18.00"
                                 "630.00" "4130.00" (Some 1740700800000) None tenantA in
  getProducts tenantB (snd (createInvoice invoice items (db_start 10)))
  = getProducts tenantB (db_start 10)
  /\ getSales tenantB (snd (updateInvoice 1 (status_patch "payee") tenantA (db_start 10)))
     = getSales tenantB (db_start 10).
Proof.
  intros invoice.
  destruct (other_tenant_lists_unchanged invoice items 1 (status_patch "payee")
              tenantA tenantB (db_start 10))
    as ((_ & Hp & _) & (_ & _ & Hs & _) & _).
  - discriminate.
  - reflexivity.
  - discriminate.
  - split; assumption.
Defined.

(** Tenant B marks invoice 1 of tenant A paid: it gets no row back and
    the invoice keeps its status. *)
Lemma updateInvoice_without_invoice_witness :
  let db := db_created "en_attente" 10 in
  fst (updateInvoice 1 (status_patch "payee") tenantB db) = None
  /\ invoices (snd (updateInvoice 1 (status_patch "payee") tenantB db)) = invoices db.
Proof.
  intros db.
  destruct (updateInvoice_without_invoice 1 (status_patch "payee") tenantB db)
    as (Hfst & _ & Hinv & _).
  - vm_compute. reflexivity.
  - split; assumption.
Defined.

(** Paid, pending, paid on the scenario's invoice. *)
Lemma pay_revert_pay_settles_twice_witness :
  let db := db_created "en_attente" 10 in
  let db1 := snd (updateInvoice 1 (status_patch "payee") tenantA db) in
  let db2 := snd (updateInvoice 1 (status_patch "en_attente") tenantA db1) in
  let db3 := snd (updateInvoice 1 (status_patch "payee") tenantA db2) in
  same_ledger db3 (createSalesFromInvoice 1 tenantA (createSalesFromInvoice 1 tenantA db)).
Proof.
  intros db db1 db2 db3.
  destruct (pay_revert_pay_settles_twice 1 (status_patch "payee") (status_patch "en_attente")
              tenantA db
              (invoice_row 1 (mkInsertInvoice "FAC-2025-001" 1 (Some "en_attente")
                                "3500.00" "18.00" "630.00" "4130.00"
                                (Some 1740700800000) None tenantA)))
    as (_ & _ & H).
  - vm_compute. reflexivity.
  - reflexivity.
  - reflexivity.
  - exists "en_attente". split; reflexivity.
  - left. reflexivity.
  - left. reflexivity.
  - exact H.
Defined.

(** A client posted by tenant A with tenant B's id in the body is stored
    under key 2 as tenant A's. *)
Lemma post_catalog_stores_under_session_witness :
  let st := mkStore (db_start 10) 2 2 1 in
  match post_clients tenantA (mkClientBody "Beta" None None None None (Some tenantB)) st with
  | (Json c, _) => cl_id c = 2 /\ cl_userId c = tenantA
  | (Status _ _, _) => False
  end.
Proof.
  intros st.
  destruct (post_catalog_stores_under_session tenantA
              (mkClientBody "Beta" None None None None (Some tenantB))
              (mkProductBody "Gamma" None "10.00" None None None)
              (mkCategoryBody "Delta" None None) st) as (H & _ & _).
  - unfold catalog_keys_ok. simpl. repeat constructor.
  - destruct (post_clients tenantA (mkClientBody "Beta" None None None None (Some tenantB)) st)
      as [[c|code message] st'].
    + destruct H as (_ & Hid & Hu & _). split; assumption.
    + destruct H as (Hp & _). vm_compute in Hp. discriminate Hp.
Defined.

(** The scenario's form: the preview shows what is submitted. *)
Lemma preview_totals_are_submitted_totals_witness :
  total (f_items (form "en_attente")) (f_tvaRate (form "en_attente"))
  = totalTTC (form "en_attente").
Proof.
  destruct (preview_totals_are_submitted_totals (form "en_attente")) as (_ & _ & H).
  - reflexivity.
  - exact H.
Defined.

(** The odd form has no due date: sent, answered 400, nothing stored. *)
Lemma no_due_date_no_invoice_witness :
  let date_toJSON := fun d : string => Some (d ++ "T00:00:00.000Z") in
  f_dueDate odd_form = None
  /\ snd (submit date_toJSON date_only tenantA "FAC-2025-002" odd_form (db_start 10))
     = db_start 10.
Proof.
  intros date_toJSON. split; [reflexivity|].
  destruct (no_due_date_no_invoice date_toJSON date_only tenantA "FAC-2025-002" odd_form
              (db_start 10))
    as (H & _).
  - simpl. exact I.
  - exact H.
Defined.

(** With product A at 0 the alert lists it. *)
Lemma lowStockProducts_lists_stock_zero_witness :
  In (productA 0) (lowStockProducts tenantA (db_start 0)).
Proof.
  destruct (lowStockProducts_lists_stock_zero tenantA (db_start 0)) as (_ & _ & H).
  apply H.
  - simpl. lia.
  - left. reflexivity.
  - reflexivity.
  - reflexivity.
Defined.

(** The scenario's invoice set to the legacy status: settled, read back
    as paid, and no revenue. *)
Lemma legacy_paid_settles_without_revenue_witness :
  let db := db_created "en_attente" 10 in
  let db' := snd (updateInvoice 1 (status_patch "paid") tenantA db) in
  same_ledger db' (createSalesFromInvoice 1 tenantA db)
  /\ revenue_rows tenantA db' = revenue_rows tenantA db.
Proof.
  intros db db'.
  destruct (legacy_paid_settles_without_revenue (fun _ => 0) 1 (status_patch "paid") tenantA db
              (invoice_row 1 (mkInsertInvoice "FAC-2025-001" 1 (Some "en_attente")
                                "3500.00" "18.00" "630.00" "4130.00"
                                (Some 1740700800000) None tenantA)))
    as (Hl & _ & Hr & _).
  - vm_compute. constructor; [intros []|constructor].
  - vm_compute. reflexivity.
  - reflexivity.
  - reflexivity.
  - left. reflexivity.
  - split; assumption.
Defined.

End FurtherInstances.
